(** * GitHub metrics collector: the resilient request layer and its callers

    A shallow embedding of [github_metrics.py].  Python dictionaries are
    finite maps, the interpreter's exceptions are an inductive type, and the
    effects of the program (HTTP requests, clock reads, sleeps, log records)
    are threaded through a state-and-exception monad whose state keeps a
    trace of everything the code did. *)

From Stdlib Require Import ZArith QArith Qminmax Ascii String List Lia.
From stdpp Require Import base option gmap strings list fin_maps.

Local Open Scope string_scope.
Local Open Scope Z_scope.

(** ** Python values *)

(** Values decoded by [response.json()] and stored in the metric records.
    Floats are idealised as rationals. *)
#[warnings="-register-all"]
Inductive pyval : Type :=
| VNone
| VBool (b : bool)
| VInt (z : Z)
| VFloat (q : Q)
| VStr (s : string)
| VList (items : list pyval)
| VDict (entries : gmap string pyval).

(** ** HTTP messages *)

Record Request : Type := mkRequest {
  req_method : string;
  req_url : string;
  req_headers : gmap string string;
  req_kwargs : list (string * pyval)
}.

(** [headers] holds the response headers under their canonical names;
    [json_body] is what [response.json()] decodes, [None] when the body is
    not JSON. *)
Record Response : Type := mkResponse {
  status_code : Z;
  headers : gmap string string;
  json_body : option pyval
}.

(** What [requests.request] does on one attempt: it hands back a response of
    any status, or raises one of the connection-level exceptions of
    [requests.exceptions] (ConnectionError, Timeout, ...). *)
Inductive attempt : Type :=
| Responded (r : Response)
| Failed (cause : string).

(** ** Exceptions *)

(** [HTTPError] and [NetworkError] are the [requests.exceptions] classes;
    in that library [HTTPError] is declared as a subclass of
    [RequestException], which is what [is_RequestException] records.
    [RateLimitError] derives from [Exception] directly. *)
Inductive exn : Type :=
| RateLimitError (reset_time : Z)
| HTTPError (response : Response)
| NetworkError (cause : string)
| JSONDecodeError
| KeyError (key : string)
| ValueError (msg : string)
| TypeError
| AttributeError
| OSError (path : string)
| OverflowError
| Exception (msg : string).

Definition is_HTTPError (e : exn) : bool :=
  match e with HTTPError _ => true | _ => false end.

Definition is_RequestException (e : exn) : bool :=
  match e with
  | HTTPError _ | NetworkError _ | JSONDecodeError => true
  | _ => false
  end.

(** The error kinds of the request layer's taxonomy. *)
Definition classified (e : exn) : bool :=
  match e with
  | RateLimitError _ | HTTPError _ | NetworkError _ => true
  | _ => false
  end.

(** The exception of the fallback [raise Exception(...)] is an instance of
    the base class itself. *)
Definition is_generic (e : exn) : bool :=
  match e with Exception _ => true | _ => false end.

(** ** Effects *)

Inductive level : Type := DEBUG | INFO | WARNING | ERROR.

Inductive event : Type :=
| EvRequest (r : Request)
| EvSleep (seconds : Q)
| EvLog (lvl : level).

(** [sent] counts the requests issued so far and [ticks] the clock reads;
    [trace] lists the observable effects, oldest first. *)
Record state : Type := mkState {
  sent : nat;
  ticks : nat;
  trace : list event
}.

Inductive outcome (A : Type) : Type :=
| Return (a : A)
| Raise (e : exn)
| OutOfFuel.
Arguments Return {A} a.
Arguments Raise {A} e.
Arguments OutOfFuel {A}.

Definition M (A : Type) : Type := state -> outcome A * state.

Definition ret {A} (a : A) : M A := fun s => (Return a, s).
Definition raise {A} (e : exn) : M A := fun s => (Raise e, s).

Definition bind {A B} (c : M A) (k : A -> M B) : M B :=
  fun s =>
    match c s with
    | (Return a, s') => k a s'
    | (Raise e, s') => (Raise e, s')
    | (OutOfFuel, s') => (OutOfFuel, s')
    end.

(** [try: c except E as e: h e], where [catches] says whether [E] covers
    the exception. *)
Definition try_except {A} (c : M A) (catches : exn -> bool) (h : exn -> M A) : M A :=
  fun s =>
    match c s with
    | (Raise e, s') => if catches e then h e s' else (Raise e, s')
    | r => r
    end.

Declare Scope py_scope.
Delimit Scope py_scope with py.
Notation "'do' x <- c ; k" := (bind c (fun x => k))
  (at level 10, x name, c at level 100, k at level 200) : py_scope.
Local Open Scope py_scope.

Definition emit (e : event) : M unit :=
  fun s => (Return tt, mkState (sent s) (ticks s) (trace s ++ [e])%list).

Definition log (lvl : level) : M unit := emit (EvLog lvl).

(** The sleeps of a trace, in order. *)
Definition sleeps (t : list event) : list Q :=
  omap (fun e => match e with EvSleep d => Some d | _ => None end) t.

(** The requests of a trace, in order. *)
Definition requests (t : list event) : list Request :=
  omap (fun e => match e with EvRequest r => Some r | _ => None end) t.

Definition Qpos (q : Q) : bool := negb (Qle_bool q 0).
Definition Qneg (q : Q) : bool := negb (Qle_bool 0 q).

(** ** The platform *)

(** How the C library under the interpreter refuses a date or a sleep it
    cannot serve.  CPython turns [OutOfRange] into [ValueError] (a year
    outside 1..9999; the message, which names the year, is abridged),
    [TooLarge] into [OverflowError] and [Unsupported] into [OSError]. *)
Inductive refusal : Type :=
| OutOfRange
| TooLarge
| Unsupported.

Definition refusal_exn (r : refusal) : exn :=
  match r with
  | OutOfRange => ValueError "year is out of range"
  | TooLarge => OverflowError
  | Unsupported => OSError "Invalid argument"
  end.

(** [fromtimestamp] is [datetime.fromtimestamp] on an integer: [None] when
    the local date exists, else the refusal (a year outside 1..9999, a
    timestamp outside [time_t], a failing [localtime]).  [long_sleep] is the
    platform's answer to a sleep longer than [sleep_everywhere] seconds. *)
Record Platform : Type := mkPlatform {
  fromtimestamp : Z -> option refusal;
  long_sleep : Q -> option refusal
}.

(** CPython keeps the length of a sleep in a signed 64-bit count of
    nanoseconds: about 9.22e9 seconds at most. *)
Definition fits_nanoseconds (seconds : Q) : bool :=
  Qle_bool (inject_Z (- 2 ^ 63)) (seconds * inject_Z (10 ^ 9)) &&
  Qle_bool (seconds * inject_Z (10 ^ 9)) (inject_Z (2 ^ 63 - 1)).

(** Every platform sleeps a length its 32-bit count of milliseconds holds
    (the smallest of the limits, [ULONG_MAX] milliseconds on Windows). *)
Definition sleep_everywhere : Q := inject_Z 4294967.

(** [raise_for_status]: statuses 400..599 raise, everything else passes. *)
Definition raise_for_status (r : Response) : M unit :=
  if (400 <=? status_code r) && (status_code r <? 600)
  then raise (HTTPError r) else ret tt.

Definition rate_limited (r : Response) : bool :=
  (status_code r =? 403) && bool_decide (is_Some (headers r !! "X-RateLimit-Remaining")).

Record GitHubMetricsCollector : Type := mkCollector {
  self_headers : gmap string string;
  base_url : string;
  max_retries : Z;
  retry_delay : Z
}.

Definition init (token : string) (max_retries retry_delay : Z) : GitHubMetricsCollector :=
  {| self_headers :=
       <["Authorization" := ("token " ++ token)%string]>
         (<["Accept" := "application/vnd.github.v3+json"]> ∅);
     base_url := "https://api.github.com";
     max_retries := max_retries;
     retry_delay := retry_delay |}.

(** What one pass through the [try] body of the retry loop decides. *)
Inductive flow : Type :=
| Returned (r : Response)
| Continue (retries : Z).

Section Runtime.

(** The world outside the program: what the [n]th request gets, what the
    [n]th clock read shows, and Python's [int] on a string ([None] for
    the strings it rejects with [ValueError]). *)
Variable net : nat -> Request -> attempt.
Variable clock : nat -> Q.
Variable py_int : string -> option Z.
Variable platform : Platform.

(** Why [time.sleep] refuses a length, if it does: [OverflowError] when the
    length does not fit the nanosecond count, [ValueError] when it is
    negative, and otherwise whatever the platform says to a sleep longer
    than [sleep_everywhere]. *)
Definition sleep_refusal (seconds : Q) : option exn :=
  if negb (fits_nanoseconds seconds) then Some OverflowError
  else if Qneg seconds then Some (ValueError "sleep length must be non-negative")
  else if Qle_bool seconds sleep_everywhere then None
  else refusal_exn <$> long_sleep platform seconds.

Definition time_sleep (seconds : Q) : M unit :=
  match sleep_refusal seconds with
  | Some e => raise e
  | None => emit (EvSleep seconds)
  end.

(** [RateLimitError(reset_time)], lines 58-60: the constructor formats
    [datetime.fromtimestamp(reset_time)] into the message, so it raises
    instead of returning the exception when that date does not exist. *)
Definition RateLimitError_init (reset_time : Z) : M exn :=
  match fromtimestamp platform reset_time with
  | None => ret (RateLimitError reset_time)
  | Some r => raise (refusal_exn r)
  end.

Definition requests_request (req : Request) : M Response :=
  fun s =>
    let s' := mkState (S (sent s)) (ticks s) (trace s ++ [EvRequest req])%list in
    match net (sent s) req with
    | Responded r => (Return r, s')
    | Failed cause => (Raise (NetworkError cause), s')
    end.

Definition time_time : M Q :=
  fun s => (Return (clock (ticks s)), mkState (sent s) (S (ticks s)) (trace s)).

(** [int(response.headers['X-RateLimit-Reset'])] *)
Definition reset_header (r : Response) : M Z :=
  match headers r !! "X-RateLimit-Reset" with
  | None => raise (KeyError "X-RateLimit-Reset")
  | Some v =>
      match py_int v with
      | None => raise (ValueError "invalid literal for int()")
      | Some z => ret z
      end
  end.

Section MakeRequest.

Variable self : GitHubMetricsCollector.
Variable req : Request.

(** The body of the [try] statement, lines 100-123. *)
Definition try_body (retries : Z) : M flow :=
  do response <- requests_request req;
  do _ <- log DEBUG;
  if rate_limited response then
    do reset_time <- reset_header response;
    do now <- time_time;
    let wait_time := (inject_Z reset_time - now)%Q in
    if Qpos wait_time && (retries <? max_retries self) then
      let wait_time := Qmin (wait_time + 1) 3600 in
      do _ <- log WARNING;
      do _ <- time_sleep wait_time;
      ret (Continue (retries + 1))
    else
      do e <- RateLimitError_init reset_time;
      raise e
  else
    do _ <- raise_for_status response;
    ret (Returned response).

(** The [while] loop, lines 98-135; [fuel] bounds the iterations. *)
Fixpoint while_retries (fuel : nat) (retries : Z) : M Response :=
  fun s =>
    if retries <=? max_retries self then
      match fuel with
      | O => (OutOfFuel, s)
      | S fuel' =>
          match try_body retries s with
          | (Return (Returned r), s1) => (Return r, s1)
          | (Return (Continue retries'), s1) => while_retries fuel' retries' s1
          | (Raise e, s1) =>
              if is_RequestException e then
                if retries <? max_retries self then
                  (let wait_time := retry_delay self * 2 ^ retries in
                   do _ <- log WARNING;
                   do _ <- time_sleep (inject_Z wait_time);
                   while_retries fuel' (retries + 1)) s1
                else (do _ <- log ERROR; raise e) s1
              else (Raise e, s1)
          | (OutOfFuel, s1) => (OutOfFuel, s1)
          end
      end
    else (Raise (Exception "Maximum retries exceeded"), s).

End MakeRequest.

(** The loop runs at most [max_retries + 1] times. *)
Definition loop_fuel (self : GitHubMetricsCollector) : nat :=
  Z.to_nat (max_retries self + 1).

Definition _make_request (self : GitHubMetricsCollector)
    (url : string) (method : string) (kwargs : list (string * pyval)) : M Response :=
  while_retries self (mkRequest method url (self_headers self) kwargs)
    (loop_fuel self) 0.

End Runtime.

(** States an iteration of the retry loop leaves behind. *)
Section Iteration.

Variable req : Request.

(** The request went out and the rate-limit headers were logged. *)
Definition answered (s : state) : state :=
  mkState (S (sent s)) (ticks s) (trace s ++ [EvRequest req; EvLog DEBUG])%list.

(** A rate-limit wait of [d] seconds followed the answer. *)
Definition waited (d : Q) (s : state) : state :=
  mkState (S (sent s)) (S (ticks s))
    (trace s ++ [EvRequest req; EvLog DEBUG; EvLog WARNING; EvSleep d])%list.

(** A failed attempt that left [s1] was backed off for [d] seconds. *)
Definition backed_off (d : Q) (s1 : state) : state :=
  mkState (sent s1) (ticks s1) (trace s1 ++ [EvLog WARNING; EvSleep d])%list.

End Iteration.

(** ** The metrics collector *)

(** [d[key]] for a string key: only dictionaries can be indexed that way. *)
Definition getitem (d : pyval) (key : string) : M pyval :=
  match d with
  | VDict m =>
      match m !! key with
      | Some v => ret v
      | None => raise (KeyError key)
      end
  | _ => raise TypeError
  end.

(** [d.get(key, default)]: only dictionaries have the method. *)
Definition dict_get (d : pyval) (key : string) (fallback : pyval) : M pyval :=
  match d with
  | VDict m => ret (default fallback (m !! key))
  | _ => raise AttributeError
  end.

(** [response.json()] *)
Definition json (r : Response) : M pyval :=
  match json_body r with
  | Some v => ret v
  | None => raise JSONDecodeError
  end.

(** What [for fork in forks] iterates over: the items of a list, the keys
    of a dictionary, the characters of a string; the other values are not
    iterable. *)
Definition iterate (v : pyval) : M (list pyval) :=
  match v with
  | VList items => ret items
  | VDict m => ret (VStr <$> (map_to_list m).*1)
  | VStr s => ret ((fun c => VStr (String c EmptyString)) <$> list_ascii_of_string s)
  | _ => raise TypeError
  end.

(** A list comprehension [[f x for x in xs]]. *)
Fixpoint comprehension {A B} (f : A -> M B) (xs : list A) : M (list B) :=
  match xs with
  | [] => ret []
  | x :: xs' =>
      do y <- f x;
      do ys <- comprehension f xs';
      ret (y :: ys)
  end.

(** The zero-valued default [{'count': 0, 'uniques': 0}]. *)
Definition zero_counts : pyval :=
  VDict (<["count" := VInt 0]> (<["uniques" := VInt 0]> ∅)).

Definition fork_entry (fork : pyval) : M pyval :=
  do owner <- getitem fork "owner";
  do login <- getitem owner "login";
  do created_at <- getitem fork "created_at";
  do updated_at <- getitem fork "updated_at";
  do stars <- getitem fork "stargazers_count";
  ret (VDict (<["owner" := login]> (<["created_at" := created_at]>
         (<["last_updated" := updated_at]> (<["stars" := stars]> ∅))))).

(** The dictionary display of [collect_all_metrics]: entries are laid down
    left to right, a later key overriding an earlier one. *)
Definition metrics_record (timestamp repository : pyval)
    (basic_metrics traffic_data : gmap string pyval) (fork_data : list pyval)
    : gmap string pyval :=
  <["fork_details" := VList fork_data]>
    (<["fork_count" := VInt (Z.of_nat (length fork_data))]>
       (traffic_data ∪ (basic_metrics ∪
          (<["repository" := repository]> (<["timestamp" := timestamp]> ∅))))).

Section Collector.

Variable net : nat -> Request -> attempt.
Variable clock : nat -> Q.
Variable py_int : string -> option Z.
Variable platform : Platform.
(** [datetime.isoformat] of an instant. *)
Variable isoformat : Q -> string.

Variable self : GitHubMetricsCollector.

Definition repo_url (owner repo : string) : string :=
  (base_url self ++ "/repos/" ++ owner ++ "/" ++ repo)%string.

Definition get_repo_basic_metrics (owner repo : string) : M (gmap string pyval) :=
  let url := repo_url owner repo in
  do response <- _make_request net clock py_int platform self url "GET" [];
  do data <- json response;
  do stars <- getitem data "stargazers_count";
  do forks <- getitem data "forks_count";
  do watchers <- getitem data "subscribers_count";
  do open_issues <- getitem data "open_issues_count";
  do last_updated <- getitem data "updated_at";
  ret (<["stars" := stars]> (<["forks" := forks]> (<["watchers" := watchers]>
         (<["open_issues" := open_issues]> (<["last_updated" := last_updated]> ∅))))).

(** One guarded sub-resource of [get_traffic_data]: the [try] fetches and
    decodes, the [except HTTPError] logs and substitutes the default. *)
Definition guarded_fetch (url : string) : M pyval :=
  try_except
    (do response <- _make_request net clock py_int platform self url "GET" [];
     json response)
    is_HTTPError
    (fun _ => do _ <- log WARNING; ret zero_counts).

Definition views_url (owner repo : string) : string :=
  (repo_url owner repo ++ "/traffic/views")%string.
Definition clones_url (owner repo : string) : string :=
  (repo_url owner repo ++ "/traffic/clones")%string.

Definition traffic_summary (views_data clones_data : pyval) : M (gmap string pyval) :=
  do total_views <- dict_get views_data "count" (VInt 0);
  do unique_visitors <- dict_get views_data "uniques" (VInt 0);
  do total_clones <- dict_get clones_data "count" (VInt 0);
  do unique_cloners <- dict_get clones_data "uniques" (VInt 0);
  ret (<["total_views" := total_views]> (<["unique_visitors" := unique_visitors]>
         (<["total_clones" := total_clones]> (<["unique_cloners" := unique_cloners]> ∅)))).

Definition get_traffic_data (owner repo : string) : M (gmap string pyval) :=
  do views_data <- guarded_fetch (views_url owner repo);
  do clones_data <- guarded_fetch (clones_url owner repo);
  traffic_summary views_data clones_data.

Definition get_fork_details (owner repo : string) : M (list pyval) :=
  let url := (repo_url owner repo ++ "/forks")%string in
  do response <- _make_request net clock py_int platform self url "GET" [];
  do forks <- json response;
  do items <- iterate forks;
  comprehension fork_entry items.

(** [datetime.now().isoformat()] *)
Definition now_isoformat : M pyval :=
  do t <- time_time clock; ret (VStr (isoformat t)).

Definition collect_all_metrics (owner repo : string) : M (gmap string pyval) :=
  do _ <- log INFO;
  try_except
    (do basic_metrics <- get_repo_basic_metrics owner repo;
     do traffic_data <- get_traffic_data owner repo;
     do fork_data <- get_fork_details owner repo;
     do timestamp <- now_isoformat;
     ret (metrics_record timestamp (VStr (owner ++ "/" ++ repo)%string)
            basic_metrics traffic_data fork_data))
    (fun _ => true)
    (fun e => do _ <- log ERROR; raise e).

End Collector.

(** ** Export *)

(** [str.lower] on the ASCII letters. *)
Definition lower_ascii (c : ascii) : ascii :=
  let n := nat_of_ascii c in
  if ((65 <=? n) && (n <=? 90))%nat then ascii_of_nat (n + 32) else c.

Fixpoint lower (s : string) : string :=
  match s with
  | EmptyString => EmptyString
  | String c s' => String (lower_ascii c) (lower s')
  end.

Fixpoint ends_with_sep (s : string) : bool :=
  match s with
  | EmptyString => false
  | String c EmptyString => bool_decide (c = "/"%char)
  | String _ s' => ends_with_sep s'
  end.

(** [os.path.join] of two components on a POSIX system. *)
Definition path_join (a b : string) : string :=
  if String.prefix "/" b then b
  else if bool_decide (a = "") || ends_with_sep a then (a ++ b)%string
  else (a ++ "/" ++ b)%string.

(** [_generate_filename], given the [strftime] rendering of the clock. *)
Definition _generate_filename (timestamp base_name format : string) : string :=
  (base_name ++ "_" ++ timestamp ++ "." ++ format)%string.

(** Objects live in a heap and refer to each other by location, so that a
    dictionary and its shallow copy share the objects they hold. *)
Definition loc := positive.

Inductive obj : Type :=
| ONone
| OBool (b : bool)
| OInt (z : Z)
| OFloat (q : Q)
| OStr (s : string)
| OList (items : list loc)
| ODict (entries : gmap string loc).

(** The interpreter heap, the directories and files on disk, and the log. *)
Record xstate : Type := mkX {
  heap : gmap loc obj;
  dirs : gset string;
  files : gmap string string;
  logged : list level
}.

Definition X (A : Type) : Type := xstate -> outcome A * xstate.

Definition xret {A} (a : A) : X A := fun s => (Return a, s).
Definition xraise {A} (e : exn) : X A := fun s => (Raise e, s).

Definition xbind {A B} (c : X A) (k : A -> X B) : X B :=
  fun s =>
    match c s with
    | (Return a, s') => k a s'
    | (Raise e, s') => (Raise e, s')
    | (OutOfFuel, s') => (OutOfFuel, s')
    end.

Definition xtry {A} (c : X A) (h : exn -> X A) : X A :=
  fun s =>
    match c s with
    | (Raise e, s') => h e s'
    | r => r
    end.

Declare Scope export_scope.
Delimit Scope export_scope with export.
Notation "'let*' x := c 'in' k" := (xbind c (fun x => k))
  (at level 10, x name, c at level 100, k at level 200) : export_scope.

Section ExportData.
Local Open Scope export_scope.

(** Whether the operating system lets the process create or write a
    path. *)
Variable permitted : string -> bool.
(** The builtin [str], the CSV rendering of a one-row frame and the
    rendering of [json.dump(..., indent=2, default=str)], each a reading
    of the heap; [json_dump] has no rendering for cyclic data. *)
Variable py_str : gmap loc obj -> loc -> string.
Variable to_csv : gmap loc obj -> loc -> string.
Variable json_dump : gmap loc obj -> loc -> option string.
(** [datetime.now().strftime('%Y%m%d_%H%M%S')] at the call. *)
Variable timestamp : string.

Definition xlog (lvl : level) : X unit :=
  fun s => (Return tt, mkX (heap s) (dirs s) (files s) (logged s ++ [lvl])).

(** Allocation of a new object. *)
Definition alloc (o : obj) : X loc :=
  fun s =>
    let l := fresh (dom (heap s)) in
    (Return l, mkX (<[l := o]> (heap s)) (dirs s) (files s) (logged s)).

Definition load (l : loc) : X obj :=
  fun s =>
    match heap s !! l with
    | Some o => (Return o, s)
    | None => (Raise (Exception "dangling reference"), s)
    end.

(** In-place update of the object at [l]. *)
Definition store (l : loc) (o : obj) : X unit :=
  fun s => (Return tt, mkX (<[l := o]> (heap s)) (dirs s) (files s) (logged s)).

Definition makedirs (path : string) : X unit :=
  fun s =>
    if permitted path
    then (Return tt, mkX (heap s) ({[path]} ∪ dirs s) (files s) (logged s))
    else (Raise (OSError path), s).

Definition write_file (path content : string) : X unit :=
  fun s =>
    if permitted path
    then (Return tt, mkX (heap s) (dirs s) (<[path := content]> (files s)) (logged s))
    else (Raise (OSError path), s).

(** [data.copy()]: dictionaries and lists have the method; the copy is
    shallow. *)
Definition copy (data : loc) : X loc :=
  let* o := load data in
  match o with
  | ODict m => alloc (ODict m)
  | OList items => alloc (OList items)
  | _ => xraise AttributeError
  end.

(** [export_data['fork_details'] = str(export_data.get('fork_details', []))] *)
Definition flatten_fork_details (export_data : loc) : X unit :=
  let* o := load export_data in
  match o with
  | ODict m =>
      let* details :=
        match m !! "fork_details" with
        | Some l => xret l
        | None => alloc (OList [])
        end in
      let* text := (fun s => (Return (py_str (heap s) details), s)) in
      let* flat := alloc (OStr text) in
      store export_data (ODict (<["fork_details" := flat]> m))
  | _ => xraise AttributeError
  end.

Definition export_data (data : loc) (output_dir base_name format : string) : X unit :=
  let* _ := (fun s => if bool_decide (output_dir ∈ dirs s)
                      then xret tt s else makedirs output_dir s) in
  let filename := path_join output_dir (_generate_filename timestamp base_name format) in
  let* _ := xlog INFO in
  xtry
    (let* export_data := copy data in
     let* _ := (if bool_decide (lower format = "csv")
                then flatten_fork_details export_data else xret tt) in
     let* df := alloc (OList [export_data]) in
     let* _ :=
       (if bool_decide (lower format = "csv") then
          let* text := (fun s => (Return (to_csv (heap s) df), s)) in
          write_file filename text
        else if bool_decide (lower format = "json") then
          let* _ := write_file filename "" in
          let* text := (fun s => (Return (json_dump (heap s) data), s)) in
          match text with
          | Some t => write_file filename t
          | None => xraise (ValueError "Circular reference detected")
          end
        else xraise (ValueError ("Unsupported export format: " ++ format))) in
     xlog INFO)
    (fun e => let* _ := xlog ERROR in xraise e).

End ExportData.

(** ** Scenarios *)

(** [int] on a string of ASCII digits, the form GitHub gives the reset
    header. *)
Fixpoint digits_value (s : string) (acc : Z) : option Z :=
  match s with
  | EmptyString => Some acc
  | String c s' =>
      let n := nat_of_ascii c in
      if ((48 <=? n) && (n <=? 57))%nat
      then digits_value s' (10 * acc + Z.of_nat (n - 48))
      else None
  end.

Definition int_of_digits (s : string) : option Z :=
  match s with
  | EmptyString => None
  | _ => digits_value s 0
  end.

(** A remote end that treats every attempt alike, and a clock that stands
    still. *)
Definition always (a : attempt) : nat -> Request -> attempt := fun _ _ => a.
Definition frozen (t : Q) : nat -> Q := fun _ => t.

(** A 64-bit Linux host whose local time is UTC: dates exist from year 1
    to year 9999, [localtime] gives up where the year leaves its 32 bits,
    and the kernel refuses a sleep whose deadline passes the end of its
    nanosecond clock. *)
Definition utc_fromtimestamp (t : Z) : option refusal :=
  if (t <? - 2 ^ 63) || (2 ^ 63 <=? t) then Some TooLarge
  else if (t <? -67768040609740800) || (67768036191676799 <? t) then Some Unsupported
  else if (t <? -62135510400) || (253402300799 <? t) then Some OutOfRange
  else None.

Definition posix : Platform :=
  {| fromtimestamp := utc_fromtimestamp;
     long_sleep := fun d => if Qle_bool d (inject_Z 9000000000) then None
                            else Some Unsupported |}.

Definition start : state := mkState 0 0 [].

(** The collector [main] builds: three retries, five seconds base delay. *)
Definition collector : GitHubMetricsCollector := init "secret" 3 5.

Definition get (self : GitHubMetricsCollector) (url : string) : Request :=
  mkRequest "GET" url (self_headers self) [].

Definition ok_response : Response :=
  mkResponse 200 ∅ (Some (VDict ∅)).

Definition not_found : Response :=
  mkResponse 404 ∅ None.

Definition rate_limit_response (reset : string) : Response :=
  mkResponse 403
    (<["X-RateLimit-Remaining" := "0"]> (<["X-RateLimit-Reset" := reset]> ∅)) None.

Definition forbidden : Response :=
  mkResponse 403 ∅ None.

Definition repo_json : pyval :=
  VDict (<["stargazers_count" := VInt 10]> (<["forks_count" := VInt 2]>
    (<["subscribers_count" := VInt 3]> (<["open_issues_count" := VInt 1]>
      (<["updated_at" := VStr "2024-01-01T00:00:00Z"]> ∅))))).

Definition fork_json (login : string) : pyval :=
  VDict (<["owner" := VDict (<["login" := VStr login]> ∅)]>
    (<["created_at" := VStr "2023-05-01T00:00:00Z"]>
      (<["updated_at" := VStr "2023-06-01T00:00:00Z"]>
        (<["stargazers_count" := VInt 0]> ∅)))).

Definition clones_json : pyval :=
  VDict (<["count" := VInt 5]> (<["uniques" := VInt 2]> ∅)).

(** A remote end for the repository [o/r]: the repository and its forks are
    served, the clone counts too, and the view counts are refused with a
    403 that carries no rate-limit header. *)
Definition remote : nat -> Request -> attempt :=
  fun _ req =>
    if String.eqb (req_url req) "https://api.github.com/repos/o/r"
    then Responded (mkResponse 200 ∅ (Some repo_json))
    else if String.eqb (req_url req) "https://api.github.com/repos/o/r/traffic/views"
    then Responded forbidden
    else if String.eqb (req_url req) "https://api.github.com/repos/o/r/traffic/clones"
    then Responded (mkResponse 200 ∅ (Some clones_json))
    else if String.eqb (req_url req) "https://api.github.com/repos/o/r/forks"
    then Responded (mkResponse 200 ∅ (Some (VList [fork_json "ann"; fork_json "bob"])))
    else Failed "no route to host".

(** The same remote end with the forks endpoint unreachable. *)
Definition remote_without_forks : nat -> Request -> attempt :=
  fun n req =>
    if String.eqb (req_url req) "https://api.github.com/repos/o/r/forks"
    then Failed "connection reset"
    else remote n req.

(** A heap with a metrics record at location 1 whose [fork_details] is the
    list at location 2, holding the fork at location 3. *)
Definition record_heap : gmap loc obj :=
  <[1%positive := ODict (<["stars" := 4%positive]> (<["fork_details" := 2%positive]> ∅))]>
    (<[2%positive := OList [3%positive]]>
       (<[3%positive := ODict (<["owner" := 5%positive]> ∅)]>
          (<[4%positive := OInt 10]> (<[5%positive := OStr "ann"]> ∅)))).

Definition empty_disk : xstate := mkX record_heap ∅ ∅ [].

(** A 403 that announces the rate limit without saying when it resets. *)
Definition limited_without_reset : Response :=
  mkResponse 403 (<["X-RateLimit-Remaining" := "0"]> ∅) None.

(** Successful responses with unexpected bodies. *)
Definition partial_repo : Response :=
  mkResponse 200 ∅ (Some (VDict (<["stargazers_count" := VInt 1]> ∅))).

Definition no_json : Response :=
  mkResponse 200 ∅ None.

Definition list_body : Response :=
  mkResponse 200 ∅ (Some (VList [])).

Definition null_body : Response :=
  mkResponse 200 ∅ (Some VNone).

(** What [get_fork_details] keeps of [fork_json login]. *)
Definition fork_kept (login : string) : pyval :=
  VDict (<["owner" := VStr login]> (<["created_at" := VStr "2023-05-01T00:00:00Z"]>
    (<["last_updated" := VStr "2023-06-01T00:00:00Z"]> (<["stars" := VInt 0]> ∅)))).

(** A collector told to wait ten thousand million seconds before its one
    retry, and one that never retries. *)
Definition patient_collector : GitHubMetricsCollector := init "secret" 1 (10 ^ 10).
Definition single_shot_collector : GitHubMetricsCollector := init "secret" 0 5.

(** The disk of [empty_disk] with the output directory in place. *)
Definition disk_with_out : xstate := mkX record_heap {["out"]} ∅ [].

(** ** Vocabulary of the statements *)

(** The outcome of [c] does not depend on the state it starts from. *)
Definition stateless {A} (c : M A) : Prop :=
  forall s s', fst (c s) = fst (c s').

(** Two outcomes of [collect_all_metrics] that agree on everything but the
    timestamp of the record. *)
Definition same_but_timestamp (o1 o2 : outcome (gmap string pyval)) : Prop :=
  match o1, o2 with
  | Return r1, Return r2 => delete "timestamp" r1 = delete "timestamp" r2
  | Raise e1, Raise e2 => e1 = e2
  | OutOfFuel, OutOfFuel => True
  | _, _ => False
  end.

(** The state once a caught exception has been logged at [lvl]. *)
Definition logged_at (lvl : level) (s : state) : state :=
  mkState (sent s) (ticks s) (trace s ++ [EvLog lvl])%list.

(** What a guarded sub-resource of [get_traffic_data] holds after a call
    with outcome [o]: the default for an [HTTPError], the decoded body of
    a response; nothing when the call ends otherwise. *)
Definition guarded_value (o : outcome Response) : option pyval :=
  match o with
  | Return r => json_body r
  | Raise (HTTPError _) => Some zero_counts
  | _ => None
  end.

(** The state the guard leaves: the [except] clause logs a warning. *)
Definition guarded_state (o : outcome Response) (s : state) : state :=
  match o with
  | Raise (HTTPError _) => logged_at WARNING s
  | _ => s
  end.

(** The two counters [get_traffic_data] reports for a sub-resource whose
    call had outcome [o]: zero and zero when the call raised an
    [HTTPError], the [count] and [uniques] of the decoded object (zero for
    a missing one) when it returned a response. *)
Definition reported_counts (o : outcome Response) (count uniques : pyval) : Prop :=
  (exists r, o = Raise (HTTPError r) /\ count = VInt 0 /\ uniques = VInt 0) \/
  (exists r m, o = Return r /\ json_body r = Some (VDict m) /\
     count = default (VInt 0) (m !! "count") /\
     uniques = default (VInt 0) (m !! "uniques")).

(** Every backoff of the collector is a length [time.sleep] accepts. *)
Definition backoffs_accepted (platform : Platform) (self : GitHubMetricsCollector) : Prop :=
  forall k, 0 <= k < max_retries self ->
    sleep_refusal platform (inject_Z (retry_delay self * 2 ^ k)) = None.

(** [c] keeps the part [h0] of the heap: started in a heap that contains
    [h0] it ends in one that does, and what it returns satisfies [Q]. *)
Definition keeps {A} (h0 : gmap loc obj) (c : X A) (Q : A -> Prop) : Prop :=
  forall s,
    h0 ⊆ heap s ->
    h0 ⊆ heap (snd (c s)) /\ forall a, fst (c s) = Return a -> Q a.

(** [entry] is what [get_fork_details] keeps of the fork [fork]: the login
    of its owner, its two dates and its stars. *)
Definition fork_summary (fork entry : pyval) : Prop :=
  exists m o login created_at updated_at stars,
    fork = VDict m /\
    m !! "owner" = Some (VDict o) /\
    o !! "login" = Some login /\
    m !! "created_at" = Some created_at /\
    m !! "updated_at" = Some updated_at /\
    m !! "stargazers_count" = Some stars /\
    entry = VDict (<["owner" := login]> (<["created_at" := created_at]>
              (<["last_updated" := updated_at]> (<["stars" := stars]> ∅)))).

(** The keys [get_repo_basic_metrics] reads, in the order it reads them. *)
Definition basic_keys : list string :=
  ["stargazers_count"; "forks_count"; "subscribers_count"; "open_issues_count";
   "updated_at"].

(** [c] leaves the state as it found it. *)
Definition reads_only {A} (c : M A) : Prop :=
  forall s, snd (c s) = s.

(** * Properties *)

(** ** Arithmetic on sleep lengths *)

Lemma Qpos_spec (q : Q) : Qpos q = true <-> (0 < q)%Q.
Proof.
  unfold Qpos. rewrite negb_true_iff.
  destruct (Qle_bool q 0) eqn:E.
  - apply Qle_bool_iff in E. split; [discriminate|].
    intros H. exfalso. exact (Qlt_not_le _ _ H E).
  - split; [intros _|reflexivity].
    apply Qnot_le_lt. intros H. apply Qle_bool_iff in H. congruence.
Qed.

Lemma Qneg_nonneg (q : Q) : (0 <= q)%Q -> Qneg q = false.
Proof.
  intros H. unfold Qneg. apply Qle_bool_iff in H. now rewrite H.
Qed.

Lemma fits_nanoseconds_short (d : Q) :
  (0 <= d)%Q -> (d <= sleep_everywhere)%Q -> fits_nanoseconds d = true.
Proof.
  intros H0 H1. unfold fits_nanoseconds. apply andb_true_iff. split.
  - apply Qle_bool_iff. apply Qle_trans with 0%Q; [discriminate|].
    apply Qmult_le_0_compat; [exact H0|discriminate].
  - apply Qle_bool_iff.
    apply Qle_trans with (sleep_everywhere * inject_Z (10 ^ 9))%Q; [|discriminate].
    apply Qmult_le_compat_r; [exact H1|discriminate].
Qed.

(** A length between zero and [sleep_everywhere] is slept on every
    platform. *)
Lemma sleep_refusal_short (platform : Platform) (d : Q) :
  (0 <= d)%Q -> (d <= sleep_everywhere)%Q -> sleep_refusal platform d = None.
Proof.
  intros H0 H1. unfold sleep_refusal.
  rewrite (fits_nanoseconds_short d H0 H1), (Qneg_nonneg d H0). cbn.
  apply Qle_bool_iff in H1. now rewrite H1.
Qed.

Lemma sleep_refusal_inject_Z (platform : Platform) (z : Z) :
  0 <= z <= 4294967 -> sleep_refusal platform (inject_Z z) = None.
Proof.
  intros H. apply sleep_refusal_short; unfold sleep_everywhere, Qle; simpl; lia.
Qed.

(** The capped rate-limit wait is at most an hour. *)
Lemma sleep_refusal_capped_wait (platform : Platform) (w : Q) :
  (0 < w)%Q -> sleep_refusal platform (Qmin (w + 1) 3600) = None.
Proof.
  intros H. apply sleep_refusal_short.
  - apply Q.min_glb.
    + apply Qlt_le_weak. apply Qlt_trans with w; [exact H|].
      rewrite <- (Qplus_0_r w) at 1. apply Qplus_lt_r. reflexivity.
    + discriminate.
  - apply Qle_trans with 3600%Q; [apply Q.le_min_r|discriminate].
Qed.

Lemma refusal_exn_foreign (r : refusal) :
  is_generic (refusal_exn r) = false /\ is_RequestException (refusal_exn r) = false /\
  classified (refusal_exn r) = false.
Proof. now destruct r. Qed.

(** What [time.sleep] raises is none of the request layer's exceptions. *)
Lemma sleep_refusal_foreign (platform : Platform) (d : Q) (e : exn) :
  sleep_refusal platform d = Some e ->
  is_generic e = false /\ is_RequestException e = false /\ classified e = false.
Proof.
  unfold sleep_refusal.
  repeat case_match; intros Hsome; try discriminate; simplify_eq; try done.
  apply fmap_Some in Hsome as (r & _ & ->). apply refusal_exn_foreign.
Qed.

Ltac foreign :=
  first [ eapply sleep_refusal_foreign; eassumption | apply refusal_exn_foreign ].

Lemma time_sleep_accepted (platform : Platform) (d : Q) (s : state) :
  sleep_refusal platform d = None ->
  time_sleep platform d s = emit (EvSleep d) s.
Proof. intros H. unfold time_sleep. now rewrite H. Qed.

Lemma time_sleep_refused (platform : Platform) (d : Q) (e : exn) (s : state) :
  sleep_refusal platform d = Some e ->
  time_sleep platform d s = (Raise e, s).
Proof. intros H. unfold time_sleep. now rewrite H. Qed.

(** Backoffs that stay within [sleep_everywhere] are accepted. *)
Lemma backoffs_accepted_short (platform : Platform) (self : GitHubMetricsCollector) :
  0 <= retry_delay self ->
  retry_delay self * 2 ^ (max_retries self - 1) <= 4294967 ->
  backoffs_accepted platform self.
Proof.
  intros Hd Hb k Hk. apply sleep_refusal_inject_Z. split.
  - apply Z.mul_nonneg_nonneg; [exact Hd|apply Z.pow_nonneg; lia].
  - apply Z.le_trans with (retry_delay self * 2 ^ (max_retries self - 1)); [|exact Hb].
    apply Z.mul_le_mono_nonneg_l; [exact Hd|].
    apply Z.pow_le_mono_r; lia.
Qed.

(** The collector of [main] backs off for 5, 10 and 20 seconds. *)
Lemma collector_backoffs (platform : Platform) : backoffs_accepted platform collector.
Proof. apply backoffs_accepted_short; vm_compute; discriminate. Qed.

(** ** One iteration of the retry loop *)

Section RetryLoop.

Variable net : nat -> Request -> attempt.
Variable clock : nat -> Q.
Variable py_int : string -> option Z.
Variable platform : Platform.
Variable self : GitHubMetricsCollector.
Variable req : Request.

Abbreviation loop := (while_retries net clock py_int platform self req).
Abbreviation body := (try_body net clock py_int platform self req).
Abbreviation answered := (answered req).
Abbreviation waited := (waited req).

Lemma app_assoc_cons {A} (l : list A) (x : A) (k : list A) :
  ((l ++ [x]) ++ k = l ++ x :: k)%list.
Proof. now rewrite <- app_assoc. Qed.

Lemma rate_limited_status (r : Response) :
  rate_limited r = true -> status_code r = 403.
Proof.
  unfold rate_limited. intros H. apply andb_true_iff in H as [H _]. lia.
Qed.

Lemma body_success (retries : Z) (s : state) (resp : Response) :
  net (sent s) req = Responded resp ->
  rate_limited resp = false ->
  (400 <=? status_code resp) && (status_code resp <? 600) = false ->
  body retries s = (Return (Returned resp), answered s).
Proof.
  intros Hnet Hrl Hok.
  unfold try_body, bind, requests_request, log, emit, raise_for_status, ret.
  rewrite Hnet. cbn. rewrite Hrl, Hok. cbn.
  unfold answered. now rewrite app_assoc_cons.
Qed.

Lemma body_http_error (retries : Z) (s : state) (resp : Response) :
  net (sent s) req = Responded resp ->
  rate_limited resp = false ->
  (400 <=? status_code resp) && (status_code resp <? 600) = true ->
  body retries s = (Raise (HTTPError resp), answered s).
Proof.
  intros Hnet Hrl Hok.
  unfold try_body, bind, requests_request, log, emit, raise_for_status, raise.
  rewrite Hnet. cbn. rewrite Hrl, Hok. cbn.
  unfold answered. now rewrite app_assoc_cons.
Qed.

Lemma body_network_failure (retries : Z) (s : state) (cause : string) :
  net (sent s) req = Failed cause ->
  body retries s =
    (Raise (NetworkError cause),
     mkState (S (sent s)) (ticks s) (trace s ++ [EvRequest req])%list).
Proof.
  intros Hnet. unfold try_body, bind, requests_request. now rewrite Hnet.
Qed.

Lemma body_rate_limit_wait (retries : Z) (s : state) (resp : Response)
    (v : string) (reset_time : Z) :
  net (sent s) req = Responded resp ->
  rate_limited resp = true ->
  headers resp !! "X-RateLimit-Reset" = Some v ->
  py_int v = Some reset_time ->
  (0 < inject_Z reset_time - clock (ticks s))%Q ->
  retries < max_retries self ->
  body retries s =
    (Return (Continue (retries + 1)),
     waited (Qmin (inject_Z reset_time - clock (ticks s) + 1) 3600) s).
Proof.
  intros Hnet Hrl Hv Hint Hwait Hlt.
  unfold try_body, bind, requests_request, log, emit, reset_header, time_time,
    time_sleep, ret.
  rewrite Hnet. cbn. rewrite Hrl, Hv, Hint. cbn.
  apply Qpos_spec in Hwait as Hpos. rewrite Hpos.
  apply Z.ltb_lt in Hlt as ->. cbn.
  rewrite (sleep_refusal_capped_wait platform _ Hwait). cbn.
  unfold waited. now rewrite !app_assoc_cons.
Qed.

(** Where the loop gives up on a rate limit, what is raised is what
    evaluating [RateLimitError(reset_time)] yields or raises. *)
Lemma body_rate_limit_stops (retries : Z) (s : state) (resp : Response)
    (v : string) (reset_time : Z) :
  net (sent s) req = Responded resp ->
  rate_limited resp = true ->
  headers resp !! "X-RateLimit-Reset" = Some v ->
  py_int v = Some reset_time ->
  max_retries self <= retries \/ (inject_Z reset_time - clock (ticks s) <= 0)%Q ->
  body retries s =
    (Raise (match fromtimestamp platform reset_time with
            | None => RateLimitError reset_time
            | Some r => refusal_exn r
            end),
     mkState (S (sent s)) (S (ticks s)) (trace s ++ [EvRequest req; EvLog DEBUG])%list).
Proof.
  intros Hnet Hrl Hv Hint Hor.
  unfold try_body, bind, requests_request, log, emit, reset_header, time_time,
    RateLimitError_init, raise, ret.
  rewrite Hnet. cbn. rewrite Hrl, Hv, Hint. cbn.
  assert (Qpos (inject_Z reset_time - clock (ticks s)) && (retries <? max_retries self)
          = false) as ->.
  { apply andb_false_iff. destruct Hor as [H|H].
    - right. now apply Z.ltb_ge.
    - left. apply not_true_is_false. intros Hp. apply Qpos_spec in Hp.
      exact (Qlt_not_le _ _ Hp H). }
  rewrite app_assoc_cons. now destruct (fromtimestamp platform reset_time).
Qed.

Lemma body_rate_limit_exceeded (retries : Z) (s : state) (resp : Response)
    (v : string) (reset_time : Z) :
  net (sent s) req = Responded resp ->
  rate_limited resp = true ->
  headers resp !! "X-RateLimit-Reset" = Some v ->
  py_int v = Some reset_time ->
  fromtimestamp platform reset_time = None ->
  max_retries self <= retries \/ (inject_Z reset_time - clock (ticks s) <= 0)%Q ->
  body retries s =
    (Raise (RateLimitError reset_time),
     mkState (S (sent s)) (S (ticks s)) (trace s ++ [EvRequest req; EvLog DEBUG])%list).
Proof.
  intros Hnet Hrl Hv Hint Hdate Hor.
  rewrite (body_rate_limit_stops retries s resp v reset_time Hnet Hrl Hv Hint Hor).
  now rewrite Hdate.
Qed.



Lemma loop_step (fuel : nat) (retries : Z) (s : state) :
  retries <= max_retries self ->
  loop (S fuel) retries s =
    match body retries s with
    | (Return (Returned r), s1) => (Return r, s1)
    | (Return (Continue retries'), s1) => loop fuel retries' s1
    | (Raise e, s1) =>
        if is_RequestException e then
          if retries <? max_retries self then
            (do _ <- log WARNING;
             do _ <- time_sleep platform (inject_Z (retry_delay self * 2 ^ retries));
             loop fuel (retries + 1)) s1
          else (do _ <- log ERROR; raise e) s1
        else (Raise e, s1)
    | (OutOfFuel, s1) => (OutOfFuel, s1)
    end.
Proof.
  intros H. apply Z.leb_le in H. cbn. now rewrite H.
Qed.


Lemma sleeps_app (t u : list event) : sleeps (t ++ u) = (sleeps t ++ sleeps u)%list.
Proof. apply omap_app. Qed.

Lemma requests_app (t u : list event) :
  requests (t ++ u) = (requests t ++ requests u)%list.
Proof. apply omap_app. Qed.

(** C7: a response with a 2xx status is returned by the iteration that
    received it: the loop stops there, having sent this one request, and
    the attempt adds no sleep to the trace. *)
Theorem success_returns_without_sleep
    (fuel : nat) (retries : Z) (s : state) (resp : Response) :
  retries <= max_retries self ->
  net (sent s) req = Responded resp ->
  200 <= status_code resp < 300 ->
  loop (S fuel) retries s = (Return resp, answered s) /\
  sleeps (trace (answered s)) = sleeps (trace s) /\
  requests (trace (answered s)) = (requests (trace s) ++ [req])%list.
Proof.
  intros Hle Hnet Hst. split; [|split].
  - rewrite (loop_step _ _ _ Hle).
    rewrite (body_success retries s resp Hnet); [reflexivity| |].
    + unfold rate_limited. replace (status_code resp =? 403) with false by lia.
      reflexivity.
    + lia.
  - cbn. rewrite sleeps_app. cbn. now rewrite app_nil_r.
  - cbn. now rewrite requests_app.
Qed.


(** Where the loop gives up on a rate limit it stops at once, without a
    sleep, with what the constructor of [RateLimitError] yields or raises. *)
Lemma rate_limit_stops
    (fuel : nat) (retries : Z) (s : state) (resp : Response)
    (v : string) (reset_time : Z) :
  retries <= max_retries self ->
  net (sent s) req = Responded resp ->
  rate_limited resp = true ->
  headers resp !! "X-RateLimit-Reset" = Some v ->
  py_int v = Some reset_time ->
  retries = max_retries self \/ (inject_Z reset_time - clock (ticks s) <= 0)%Q ->
  exists s',
    loop (S fuel) retries s =
      (Raise (match fromtimestamp platform reset_time with
              | None => RateLimitError reset_time
              | Some r => refusal_exn r
              end), s') /\
    sleeps (trace s') = sleeps (trace s) /\
    sent s' = S (sent s).
Proof.
  intros Hle Hnet Hrl Hv Hint Hor.
  eexists. split; [|split].
  - rewrite (loop_step _ _ _ Hle).
    rewrite (body_rate_limit_stops retries s resp v reset_time); try done.
    + assert (is_RequestException
                (match fromtimestamp platform reset_time with
                 | None => RateLimitError reset_time
                 | Some r => refusal_exn r
                 end) = false) as ->; [|reflexivity].
      destruct (fromtimestamp platform reset_time) as [r|]; [|reflexivity].
      apply refusal_exn_foreign.
    + destruct Hor as [->|H]; [left; lia|now right].
  - cbn. rewrite sleeps_app. cbn. now rewrite app_nil_r.
  - reflexivity.
Qed.

(** X23: on a rate-limited response received when the retry budget is used
    up, or whose reset time is not in the future, and whose reset time is a
    date [datetime.fromtimestamp] can give, the loop raises
    [RateLimitError] with the reset timestamp read from the header, and the
    iteration adds no sleep to the trace. *)
Theorem rate_limit_exceeded_raises
    (fuel : nat) (retries : Z) (s : state) (resp : Response)
    (v : string) (reset_time : Z) :
  retries <= max_retries self ->
  net (sent s) req = Responded resp ->
  rate_limited resp = true ->
  headers resp !! "X-RateLimit-Reset" = Some v ->
  py_int v = Some reset_time ->
  fromtimestamp platform reset_time = None ->
  retries = max_retries self \/ (inject_Z reset_time - clock (ticks s) <= 0)%Q ->
  exists s',
    loop (S fuel) retries s = (Raise (RateLimitError reset_time), s') /\
    sleeps (trace s') = sleeps (trace s) /\
    sent s' = S (sent s).
Proof.
  intros Hle Hnet Hrl Hv Hint Hdate Hor.
  destruct (rate_limit_stops fuel retries s resp v reset_time Hle Hnet Hrl Hv Hint Hor)
    as (s' & Hrun & Hrest).
  rewrite Hdate in Hrun. eauto.
Qed.

(** ** Runs of the whole loop *)

(** What an iteration can decide: it never asks to continue unless a retry
    is left, what it raises is never the generic exception, and it has
    sent exactly one request. *)
Lemma body_cases (retries : Z) (s : state) :
  sent (snd (body retries s)) = S (sent s) /\
  match fst (body retries s) with
  | Return (Returned _) => True
  | Return (Continue retries') => retries' = retries + 1 /\ retries < max_retries self
  | Raise e => is_generic e = false
  | OutOfFuel => False
  end.
Proof.
  unfold try_body, bind, requests_request, log, reset_header, time_time,
    time_sleep, RateLimitError_init, raise_for_status, emit, raise, ret.
  repeat (case_match; simplify_eq/=); split; try done; try foreign.
  split; [done|].
  match goal with H : _ && _ = true |- _ => apply andb_true_iff in H as [_ H] end.
  lia.
Qed.




(** An HTTP error status that is not the rate-limit case is raised by
    [raise_for_status] inside the [try], where [except RequestException]
    catches it: with a retry left the loop backs off and goes round again. *)
Lemma http_error_backs_off (fuel : nat) (retries : Z) (s : state) (resp : Response) :
  net (sent s) req = Responded resp ->
  rate_limited resp = false ->
  400 <= status_code resp < 600 ->
  retries < max_retries self ->
  sleep_refusal platform (inject_Z (retry_delay self * 2 ^ retries)) = None ->
  loop (S fuel) retries s =
    loop fuel (retries + 1)
      (backed_off (inject_Z (retry_delay self * 2 ^ retries)) (answered s)).
Proof.
  intros Hnet Hrl Hst Hlt Hdelay.
  rewrite loop_step by lia.
  rewrite (body_http_error retries s resp Hnet Hrl) by lia. cbn.
  apply Z.ltb_lt in Hlt as ->.
  unfold bind, log, time_sleep, emit. cbn.
  rewrite Hdelay.
  cbn. unfold backed_off. cbn. now rewrite app_assoc_cons.
Qed.

#[local] Arguments while_retries : simpl never.

(** A run of network failures: every attempt but the last is backed off,
    the last one's exception is re-raised. *)
Lemma network_failures_loop (cause : nat -> string) (n : nat) :
  backoffs_accepted platform self ->
  forall retries s,
    0 <= retries ->
    retries + Z.of_nat n = max_retries self ->
    (forall k, (k <= n)%nat -> net (sent s + k)%nat req = Failed (cause k)) ->
    exists s',
      loop (S n) retries s = (Raise (NetworkError (cause n)), s') /\
      sleeps (trace s') =
        (sleeps (trace s) ++
         ((fun k => inject_Z (retry_delay self * 2 ^ Z.of_nat k)) <$> seq (Z.to_nat retries) n))%list /\
      sent s' = (sent s + S n)%nat.
Proof.
  intros Hdelay. revert cause.
  induction n as [|n IH]; intros cause retries s Hre Hmax Hnet.
  - rewrite loop_step by lia.
    rewrite (body_network_failure retries s (cause 0%nat)).
    2:{ rewrite <- (Hnet 0%nat) by lia. f_equal. lia. }
    cbn. replace (retries <? max_retries self) with false by lia.
    unfold bind, log, emit, raise. cbn. eexists. split; [reflexivity|]. cbn.
    split; [|lia].
    rewrite !sleeps_app. cbn. now rewrite !app_nil_r.
  - rewrite loop_step by lia.
    rewrite (body_network_failure retries s (cause 0%nat)).
    2:{ rewrite <- (Hnet 0%nat) by lia. f_equal. lia. }
    cbn. replace (retries <? max_retries self) with true by lia.
    unfold bind, log, time_sleep, emit. cbn.
    rewrite (Hdelay retries) by lia.
    cbn.
    match goal with |- context [loop (S n) _ ?s1] =>
      destruct (IH (fun k => cause (S k)) (retries + 1) s1) as (s' & Hrun & Hsl & Hsent)
    end; [lia|lia| |].
    + intros k Hk. cbn. rewrite <- (Hnet (S k)) by lia. f_equal. lia.
    + exists s'. split; [exact Hrun|]. split; [|cbn in Hsent; lia].
      rewrite Hsl. cbn. rewrite !sleeps_app. cbn.
      rewrite app_nil_r, <- app_assoc. cbn.
      replace (Z.to_nat (retries + 1)) with (S (Z.to_nat retries)) by lia.
      rewrite Z2Nat.id by lia. now rewrite app_nil_r.
Qed.

End RetryLoop.

(** ** [_make_request] *)

Section MakeRequestProperties.

Variable net : nat -> Request -> attempt.
Variable clock : nat -> Q.
Variable py_int : string -> option Z.
Variable platform : Platform.
Variable self : GitHubMetricsCollector.

Abbreviation make_request := (_make_request net clock py_int platform self).

Lemma loop_fuel_enough : 0 <= max_retries self ->
  loop_fuel self = S (Z.to_nat (max_retries self)).
Proof. intros H. unfold loop_fuel. lia. Qed.

(** C3: with [max_retries >= 0] and backoffs that are all lengths
    [time.sleep] accepts, when every attempt of a call fails at the network
    level, the [n]th retry is preceded by a sleep of
    [retry_delay * 2^(n-1)] seconds, and once [max_retries] retries are
    used up the exception of the last attempt is raised as [requests]
    raised it. *)
Theorem network_failures_backoff
    (url method : string) (kwargs : list (string * pyval))
    (cause : nat -> string) (s : state) :
  0 <= max_retries self ->
  backoffs_accepted platform self ->
  (forall k, (k <= Z.to_nat (max_retries self))%nat ->
     net (sent s + k)%nat (mkRequest method url (self_headers self) kwargs)
       = Failed (cause k)) ->
  exists s',
    make_request url method kwargs s
      = (Raise (NetworkError (cause (Z.to_nat (max_retries self)))), s') /\
    sleeps (trace s') =
      (sleeps (trace s) ++
       ((fun n => inject_Z (retry_delay self * 2 ^ (Z.of_nat n - 1)))
          <$> seq 1 (Z.to_nat (max_retries self))))%list /\
    sent s' = (sent s + Z.to_nat (max_retries self) + 1)%nat.
Proof.
  intros Hmax Hdelay Hnet.
  unfold _make_request. rewrite (loop_fuel_enough Hmax).
  destruct (network_failures_loop net clock py_int platform self
              (mkRequest method url (self_headers self) kwargs) cause
              (Z.to_nat (max_retries self)) Hdelay 0 s)
    as (s' & Hrun & Hsl & Hsent); [lia|lia|exact Hnet|].
  exists s'. split; [exact Hrun|]. split; [|lia].
  rewrite Hsl. f_equal. cbn [Z.to_nat].
  rewrite <- (fmap_S_seq 0), <- list_fmap_compose.
  apply list_fmap_ext. intros _ k _. cbn. do 3 f_equal. lia.
Qed.


End MakeRequestProperties.


(** ** Further properties of the request layer *)

Lemma capped_wait_bounds (w : Q) :
  (0 < w)%Q -> (1 < Qmin (w + 1) 3600)%Q /\ (Qmin (w + 1) 3600 <= 3600)%Q.
Proof.
  intros H. split.
  - apply Q.min_glb_lt; [|reflexivity].
    rewrite <- (Qplus_0_l 1) at 1. apply Qplus_lt_l. exact H.
  - apply Q.le_min_r.
Qed.

Section RequestLayer.

Variable net : nat -> Request -> attempt.
Variable clock : nat -> Q.
Variable py_int : string -> option Z.
Variable platform : Platform.
Variable self : GitHubMetricsCollector.
Variable req : Request.

Abbreviation loop := (while_retries net clock py_int platform self req).
Abbreviation body := (try_body net clock py_int platform self req).

(** An iteration sleeps only when it decides to continue, and then for
    more than one second and at most an hour. *)
Lemma body_sleeps (retries : Z) (s : state) :
  match fst (body retries s) with
  | Return (Continue _) =>
      exists d, (1 < d)%Q /\ (d <= 3600)%Q /\
        sleeps (trace (snd (body retries s))) = (sleeps (trace s) ++ [d])%list
  | _ => sleeps (trace (snd (body retries s))) = sleeps (trace s)
  end.
Proof.
  unfold try_body, bind, requests_request, log, reset_header, time_time,
    time_sleep, RateLimitError_init, raise_for_status, emit, raise, ret.
  repeat (case_match; simplify_eq/=);
    rewrite ?sleeps_app; cbn; rewrite ?app_nil_r; try reflexivity.
  match goal with H : _ && _ = true |- _ => apply andb_true_iff in H as [H _] end.
  match goal with H : Qpos _ = true |- _ => apply Qpos_spec, capped_wait_bounds in H as [? ?] end.
  eexists. split; [eassumption|]. split; [eassumption|]. reflexivity.
Qed.

(** A sleep of the loop: a capped rate-limit wait or a backoff. *)
Lemma loop_sleeps (fuel : nat) :
  forall retries s,
    0 <= retries ->
    exists ds,
      sleeps (trace (snd (loop fuel retries s))) = (sleeps (trace s) ++ ds)%list /\
      (length ds <= Z.to_nat (max_retries self - retries))%nat /\
      Forall (fun d => ((1 < d)%Q /\ (d <= 3600)%Q) \/
                       exists k, 0 <= k < max_retries self /\
                                 d = inject_Z (retry_delay self * 2 ^ k)) ds.
Proof.
  induction fuel as [|fuel IH]; intros retries s Hre.
  - exists []. rewrite app_nil_r. cbn.
    destruct (retries <=? max_retries self); cbn; repeat split; try lia; constructor.
  - destruct (Z.le_gt_cases retries (max_retries self)) as [Hle|Hgt].
    2:{ exists []. rewrite app_nil_r. cbn.
        replace (retries <=? max_retries self) with false by lia.
        cbn. repeat split; try lia; constructor. }
    rewrite loop_step by exact Hle.
    pose proof (body_sleeps retries s) as Hs.
    destruct (body_cases net clock py_int platform self req retries s) as [_ Hcase].
    destruct (body retries s) as [[[r|retries']|e|] s1]; cbn [fst snd] in *.
    + exists []. rewrite app_nil_r. repeat split; [exact Hs|cbn; lia|constructor].
    + destruct Hcase as [-> Hlt]. destruct Hs as (d & Hd1 & Hd2 & Hs).
      destruct (IH (retries + 1) s1) as (ds & Hds & Hlen & Hall); [lia|].
      exists (d :: ds). rewrite Hds, Hs, <- app_assoc. split; [reflexivity|].
      split; [cbn; lia|]. constructor; auto.
    + destruct (is_RequestException e);
        [|exists []; rewrite app_nil_r; repeat split; [exact Hs|cbn; lia|constructor]].
      destruct (retries <? max_retries self) eqn:Hlt;
        unfold bind, log, time_sleep, emit, raise; cbn [fst snd].
      * apply Z.ltb_lt in Hlt. destruct (sleep_refusal _ _); cbn [fst snd].
        -- exists []. cbn. rewrite sleeps_app, Hs. cbn.
           repeat split; [cbn; lia|constructor].
        -- match goal with |- context [loop fuel ?r ?s'] =>
             destruct (IH r s') as (ds & Hds & Hlen & Hall); [lia|] end.
           exists (inject_Z (retry_delay self * 2 ^ retries) :: ds).
           rewrite Hds. cbn. rewrite !sleeps_app, Hs. cbn.
           rewrite app_nil_r, <- app_assoc. split; [reflexivity|].
           split; [cbn; lia|]. constructor; [|exact Hall].
           right. exists retries. split; [lia|reflexivity].
      * exists []. cbn. rewrite sleeps_app, Hs. cbn.
        repeat split; [cbn; lia|constructor].
    + exists []. rewrite app_nil_r. repeat split; [exact Hs|cbn; lia|constructor].
Qed.

(** What the loop returns went through [raise_for_status]. *)
Lemma body_returns_ok (retries : Z) (s s1 : state) (r : Response) :
  body retries s = (Return (Returned r), s1) ->
  rate_limited r = false /\ (400 <=? status_code r) && (status_code r <? 600) = false.
Proof.
  unfold try_body, bind, requests_request, log, reset_header, time_time,
    time_sleep, RateLimitError_init, raise_for_status, emit, raise, ret.
  intros H. repeat (case_match; simplify_eq/=). auto.
Qed.

Lemma loop_returns_ok (fuel : nat) :
  forall retries s r s',
    loop fuel retries s = (Return r, s') ->
    rate_limited r = false /\ (400 <=? status_code r) && (status_code r <? 600) = false.
Proof.
  induction fuel as [|fuel IH]; intros retries s r s'; cbn.
  - destruct (retries <=? max_retries self); discriminate.
  - destruct (retries <=? max_retries self); [|discriminate].
    destruct (body retries s) as [[[r1|retries']|e|] s1] eqn:Hbody; try discriminate.
    + intros [= <- <-]. exact (body_returns_ok _ _ _ _ Hbody).
    + apply IH.
    + destruct (is_RequestException e); [|discriminate].
      destruct (retries <? max_retries self);
        unfold bind, log, time_sleep, emit, raise; cbn; [|discriminate].
      destruct (sleep_refusal _ _); cbn; [discriminate|]. apply IH.
Qed.

(** A rate-limited response whose reset header is missing or is no
    integer ends the call at once with the exception of the lookup. *)
Lemma reset_unreadable_raises (fuel : nat) (retries : Z) (s : state) (resp : Response) :
  retries <= max_retries self ->
  net (sent s) req = Responded resp ->
  rate_limited resp = true ->
  match headers resp !! "X-RateLimit-Reset" with
  | None =>
      loop (S fuel) retries s = (Raise (KeyError "X-RateLimit-Reset"), answered req s)
  | Some v =>
      py_int v = None ->
      loop (S fuel) retries s
        = (Raise (ValueError "invalid literal for int()"), answered req s)
  end.
Proof.
  intros Hle Hnet Hrl. rewrite loop_step by exact Hle.
  unfold try_body, bind, requests_request, log, reset_header, emit, raise.
  rewrite Hnet. cbn. rewrite Hrl.
  destruct (headers resp !! "X-RateLimit-Reset") as [v|]; cbn.
  - intros ->. cbn. unfold answered. now rewrite app_assoc_cons.
  - unfold answered. now rewrite app_assoc_cons.
Qed.

(** A run of HTTP error responses is retried like a run of network
    failures. *)
Lemma http_errors_loop (resp : Response) (n : nat) :
  backoffs_accepted platform self ->
  rate_limited resp = false ->
  400 <= status_code resp < 600 ->
  forall retries s,
    0 <= retries ->
    retries + Z.of_nat n = max_retries self ->
    (forall k, (k <= n)%nat -> net (sent s + k)%nat req = Responded resp) ->
    exists s',
      loop (S n) retries s = (Raise (HTTPError resp), s') /\
      sleeps (trace s') =
        (sleeps (trace s) ++
         ((fun k => inject_Z (retry_delay self * 2 ^ Z.of_nat k)) <$> seq (Z.to_nat retries) n))%list /\
      sent s' = (sent s + S n)%nat.
Proof.
  intros Hdelay Hrl Hst.
  induction n as [|n IH]; intros retries s Hre Hmax Hnet.
  - rewrite loop_step by lia.
    rewrite (body_http_error net clock py_int platform self req retries s resp); [| |exact Hrl|lia].
    2:{ rewrite <- (Hnet 0%nat) by lia. f_equal. lia. }
    cbn. replace (retries <? max_retries self) with false by lia.
    unfold bind, log, emit, raise. cbn. eexists. split; [reflexivity|]. cbn.
    split; [|lia].
    rewrite !sleeps_app. cbn. now rewrite !app_nil_r.
  - rewrite http_error_backs_off with (resp := resp);
      [| |exact Hrl|lia|lia|apply Hdelay; lia].
    2:{ rewrite <- (Hnet 0%nat) by lia. f_equal. lia. }
    match goal with |- context [loop (S n) _ ?s1] =>
      destruct (IH (retries + 1) s1) as (s' & Hrun & Hsl & Hsent)
    end; [lia|lia| |].
    + intros k Hk. cbn. rewrite <- (Hnet (S k)) by lia. f_equal. lia.
    + exists s'. split; [exact Hrun|]. split; [|cbn in Hsent; lia].
      rewrite Hsl. cbn. rewrite !sleeps_app. cbn.
      rewrite !app_nil_r, <- app_assoc. cbn.
      replace (Z.to_nat (retries + 1)) with (S (Z.to_nat retries)) by lia.
      now rewrite Z2Nat.id by lia.
Qed.

End RequestLayer.

Section MakeRequestFurther.

Variable net : nat -> Request -> attempt.
Variable clock : nat -> Q.
Variable py_int : string -> option Z.
Variable platform : Platform.
Variable self : GitHubMetricsCollector.

Abbreviation make_request := (_make_request net clock py_int platform self).

(** A response that is neither rate-limited nor an error is returned by
    the first iteration. *)
Lemma make_request_returns
    (url method : string) (kwargs : list (string * pyval)) (s : state) (resp : Response) :
  0 <= max_retries self ->
  net (sent s) (mkRequest method url (self_headers self) kwargs) = Responded resp ->
  rate_limited resp = false ->
  (400 <=? status_code resp) && (status_code resp <? 600) = false ->
  make_request url method kwargs s
    = (Return resp, answered (mkRequest method url (self_headers self) kwargs) s).
Proof.
  intros Hmax Hnet Hrl Hst. unfold _make_request.
  rewrite (loop_fuel_enough self Hmax), loop_step by lia.
  now rewrite (body_success net clock py_int platform self _ 0 s resp Hnet Hrl Hst).
Qed.

(** X1: with a negative [max_retries] the loop is never entered: no request is
    sent, nothing is logged, and the fallback exception is raised. *)
Theorem negative_max_retries_sends_nothing
    (url method : string) (kwargs : list (string * pyval)) (s : state) :
  max_retries self < 0 ->
  make_request url method kwargs s = (Raise (Exception "Maximum retries exceeded"), s).
Proof.
  intros H. unfold _make_request.
  destruct (loop_fuel self); cbn; now replace (0 <=? max_retries self) with false by lia.
Qed.

Lemma make_request_http_errors
    (url method : string) (kwargs : list (string * pyval)) (s : state) (resp : Response) :
  0 <= max_retries self ->
  backoffs_accepted platform self ->
  rate_limited resp = false ->
  400 <= status_code resp < 600 ->
  (forall k, (k <= Z.to_nat (max_retries self))%nat ->
     net (sent s + k)%nat (mkRequest method url (self_headers self) kwargs)
       = Responded resp) ->
  exists s', make_request url method kwargs s = (Raise (HTTPError resp), s').
Proof.
  intros Hmax Hdelay Hrl Hst Hnet.
  unfold _make_request. rewrite (loop_fuel_enough self Hmax).
  destruct (http_errors_loop net clock py_int platform self
              (mkRequest method url (self_headers self) kwargs) resp
              (Z.to_nat (max_retries self)) Hdelay Hrl Hst 0 s)
    as (s' & Hrun & _); [lia|lia|exact Hnet|].
  now exists s'.
Qed.

Lemma make_request_network_failures
    (url method : string) (kwargs : list (string * pyval)) (s : state) (cause : string) :
  0 <= max_retries self ->
  backoffs_accepted platform self ->
  (forall n, net n (mkRequest method url (self_headers self) kwargs) = Failed cause) ->
  exists s', make_request url method kwargs s = (Raise (NetworkError cause), s').
Proof.
  intros Hmax Hdelay Hnet.
  unfold _make_request. rewrite (loop_fuel_enough self Hmax).
  destruct (network_failures_loop net clock py_int platform self
              (mkRequest method url (self_headers self) kwargs) (fun _ => cause)
              (Z.to_nat (max_retries self)) Hdelay 0 s)
    as (s' & Hrun & _); [lia|lia|intros; apply Hnet|].
  now exists s'.
Qed.

(** X2: an error status that is not the rate-limit case is retried like a
    network failure: when every attempt is answered with it and
    [time.sleep] accepts every backoff, the call sends [max_retries + 1]
    requests, sleeps [retry_delay * 2^(n-1)] before the [n]th retry and
    only then raises the [HTTPError]. *)
Theorem http_error_exhausts_retries
    (url method : string) (kwargs : list (string * pyval)) (s : state) (resp : Response) :
  0 <= max_retries self ->
  backoffs_accepted platform self ->
  rate_limited resp = false ->
  400 <= status_code resp < 600 ->
  (forall k, (k <= Z.to_nat (max_retries self))%nat ->
     net (sent s + k)%nat (mkRequest method url (self_headers self) kwargs)
       = Responded resp) ->
  exists s',
    make_request url method kwargs s = (Raise (HTTPError resp), s') /\
    sleeps (trace s') =
      (sleeps (trace s) ++
       ((fun n => inject_Z (retry_delay self * 2 ^ (Z.of_nat n - 1)))
          <$> seq 1 (Z.to_nat (max_retries self))))%list /\
    sent s' = (sent s + Z.to_nat (max_retries self) + 1)%nat.
Proof.
  intros Hmax Hdelay Hrl Hst Hnet.
  unfold _make_request. rewrite (loop_fuel_enough self Hmax).
  destruct (http_errors_loop net clock py_int platform self
              (mkRequest method url (self_headers self) kwargs) resp
              (Z.to_nat (max_retries self)) Hdelay Hrl Hst 0 s)
    as (s' & Hrun & Hsl & Hsent); [lia|lia|exact Hnet|].
  exists s'. split; [exact Hrun|]. split; [|lia].
  rewrite Hsl. f_equal. cbn [Z.to_nat].
  rewrite <- (fmap_S_seq 0), <- list_fmap_compose.
  apply list_fmap_ext. intros _ k _. cbn. do 3 f_equal. lia.
Qed.

(** X3: A 403 with X-RateLimit-Remaining but without X-RateLimit-Reset is not
    handled as a rate limit: the [KeyError] of the header lookup leaves the
    call after one request, with no wait and no retry. *)
Theorem missing_reset_header_raises_key_error
    (url method : string) (kwargs : list (string * pyval)) (s : state) (resp : Response) :
  0 <= max_retries self ->
  net (sent s) (mkRequest method url (self_headers self) kwargs) = Responded resp ->
  rate_limited resp = true ->
  headers resp !! "X-RateLimit-Reset" = None ->
  make_request url method kwargs s
    = (Raise (KeyError "X-RateLimit-Reset"),
       answered (mkRequest method url (self_headers self) kwargs) s).
Proof.
  intros Hmax Hnet Hrl Hnone. unfold _make_request.
  rewrite (loop_fuel_enough self Hmax).
  pose proof (reset_unreadable_raises net clock py_int platform self _ (Z.to_nat (max_retries self))
                0 s resp Hmax Hnet Hrl) as H.
  now rewrite Hnone in H.
Qed.

(** X4: the same for a reset header that [int] rejects: a [ValueError]. *)
Theorem malformed_reset_header_raises_value_error
    (url method : string) (kwargs : list (string * pyval)) (s : state) (resp : Response)
    (v : string) :
  0 <= max_retries self ->
  net (sent s) (mkRequest method url (self_headers self) kwargs) = Responded resp ->
  rate_limited resp = true ->
  headers resp !! "X-RateLimit-Reset" = Some v ->
  py_int v = None ->
  make_request url method kwargs s
    = (Raise (ValueError "invalid literal for int()"),
       answered (mkRequest method url (self_headers self) kwargs) s).
Proof.
  intros Hmax Hnet Hrl Hv Hint. unfold _make_request.
  rewrite (loop_fuel_enough self Hmax).
  pose proof (reset_unreadable_raises net clock py_int platform self _ (Z.to_nat (max_retries self))
                0 s resp Hmax Hnet Hrl) as H.
  rewrite Hv in H. auto.
Qed.

(** X5: whatever [_make_request] returns has passed [raise_for_status] and is
    not a rate-limit response: its status is outside 400..599. *)
Theorem returned_response_is_no_error
    (url method : string) (kwargs : list (string * pyval)) (s s' : state) (resp : Response) :
  make_request url method kwargs s = (Return resp, s') ->
  ~ (400 <= status_code resp < 600) /\ rate_limited resp = false.
Proof.
  intros H. apply loop_returns_ok in H as [Hrl Hst]. split; [lia|exact Hrl].
Qed.

(** X6: the retry budget is shared by the two kinds of wait: a call sleeps at
    most [max_retries] times in all, and every sleep is either a rate-limit
    wait of more than a second and at most an hour, or a backoff of
    [retry_delay * 2^k] seconds with [0 <= k < max_retries]. *)
Theorem sleeps_within_budget
    (url method : string) (kwargs : list (string * pyval)) (s : state) :
  exists ds,
    sleeps (trace (snd (make_request url method kwargs s)))
      = (sleeps (trace s) ++ ds)%list /\
    (length ds <= Z.to_nat (max_retries self))%nat /\
    Forall (fun d => ((1 < d)%Q /\ (d <= 3600)%Q) \/
                     exists k, 0 <= k < max_retries self /\
                               d = inject_Z (retry_delay self * 2 ^ k)) ds.
Proof.
  unfold _make_request.
  destruct (loop_sleeps net clock py_int platform self
              (mkRequest method url (self_headers self) kwargs) (loop_fuel self) 0 s)
    as (ds & Hds & Hlen & Hall); [lia|].
  exists ds. split; [exact Hds|]. split; [|exact Hall].
  now replace (max_retries self - 0) with (max_retries self) in Hlen by lia.
Qed.

End MakeRequestFurther.

(** ** The request layer on concrete runs *)

Lemma success_returns_without_sleep_witness :
  while_retries (always (Responded ok_response)) (frozen 0) int_of_digits posix collector
    (get collector "https://api.github.com/repos/o/r") 1 0 start
    = (Return ok_response, answered (get collector "https://api.github.com/repos/o/r") start) /\
  sleeps (trace (answered (get collector "https://api.github.com/repos/o/r") start))
    = sleeps (trace start) /\
  requests (trace (answered (get collector "https://api.github.com/repos/o/r") start))
    = (requests (trace start) ++ [get collector "https://api.github.com/repos/o/r"])%list.
Proof.
  apply (success_returns_without_sleep (always (Responded ok_response)) (frozen 0)
           int_of_digits posix collector (get collector "https://api.github.com/repos/o/r")
           0 0 start ok_response).
  - vm_compute. discriminate.
  - reflexivity.
  - cbn. lia.
Defined.


Lemma rate_limit_exceeded_raises_witness :
  exists s',
    while_retries (always (Responded (rate_limit_response "2000"))) (frozen 1000)
      int_of_digits posix collector (get collector "https://api.github.com/repos/o/r") 1 3 start
      = (Raise (RateLimitError 2000), s') /\
    sleeps (trace s') = sleeps (trace start) /\
    sent s' = S (sent start).
Proof.
  apply (rate_limit_exceeded_raises (always (Responded (rate_limit_response "2000")))
           (frozen 1000) int_of_digits posix collector
           (get collector "https://api.github.com/repos/o/r")
           0 3 start (rate_limit_response "2000") "2000" 2000).
  - vm_compute. discriminate.
  - reflexivity.
  - reflexivity.
  - reflexivity.
  - reflexivity.
  - reflexivity.
  - left. reflexivity.
Defined.

Lemma network_failures_backoff_witness :
  exists s',
    _make_request (always (Failed "connection refused")) (frozen 0) int_of_digits posix collector
      "https://api.github.com/repos/o/r" "GET" [] start
      = (Raise (NetworkError "connection refused"), s') /\
    sleeps (trace s') =
      (sleeps (trace start) ++
       ((fun n => inject_Z (retry_delay collector * 2 ^ (Z.of_nat n - 1)))
          <$> seq 1 (Z.to_nat (max_retries collector))))%list /\
    sent s' = (sent start + Z.to_nat (max_retries collector) + 1)%nat.
Proof.
  apply (network_failures_backoff (always (Failed "connection refused")) (frozen 0)
           int_of_digits posix collector "https://api.github.com/repos/o/r" "GET" []
           (fun _ => "connection refused") start).
  - vm_compute. discriminate.
  - apply backoffs_accepted_short; vm_compute; discriminate.
  - intros k _. reflexivity.
Defined.

(** C3 without the bound on the backoffs: a delay [time.sleep] does not
    accept breaks the sequence.  The collector told to wait [10^10] seconds
    raises [OverflowError] at its first backoff: it has sent one request,
    has not slept, and the network error is lost. *)
Lemma backoff_longer_than_sleep_allows :
  let r := _make_request (always (Failed "connection refused")) (frozen 0) int_of_digits posix
             patient_collector "https://api.github.com/repos/o/r" "GET" [] start in
  0 <= max_retries patient_collector /\
  0 <= retry_delay patient_collector /\
  fst r = Raise OverflowError /\
  fst r <> Raise (NetworkError "connection refused") /\
  sleeps (trace (snd r)) = [] /\
  sent (snd r) = 1%nat.
Proof.
  cbv zeta. unfold _make_request.
  replace (loop_fuel patient_collector) with 2%nat by reflexivity.
  rewrite loop_step by (vm_compute; discriminate).
  rewrite (body_network_failure _ _ _ _ _ _ 0 start "connection refused") by reflexivity.
  cbn [is_RequestException].
  replace (0 <? max_retries patient_collector) with true by reflexivity.
  unfold bind, log, emit. cbn [fst snd sent ticks trace].
  rewrite (time_sleep_refused posix _ OverflowError) by reflexivity.
  repeat match goal with |- _ /\ _ => split end;
    try (vm_compute; discriminate); reflexivity.
Qed.



(** C5 (the code departs from it): a rate-limited response whose reset time
    is no date [datetime.fromtimestamp] can give does not end in
    [RateLimitError].  With the retry budget used up (a collector without
    retries) and X-RateLimit-Reset: 99999999999999, the constructor of the
    exception fails while formatting its message and the call raises that
    [ValueError] instead; it has sent one request and not slept. *)
Theorem rate_limit_error_fails_to_format :
  exists s',
    _make_request (always (Responded (rate_limit_response "99999999999999")))
      (frozen (inject_Z 1700000000)) int_of_digits posix single_shot_collector
      "https://api.github.com/repos/o/r" "GET" [] start
      = (Raise (ValueError "year is out of range"), s') /\
    sleeps (trace s') = [] /\
    sent s' = 1%nat.
Proof.
  unfold _make_request.
  replace (loop_fuel single_shot_collector) with 1%nat by reflexivity.
  destruct (rate_limit_stops (always (Responded (rate_limit_response "99999999999999")))
              (frozen (inject_Z 1700000000)) int_of_digits posix single_shot_collector
              (mkRequest "GET" "https://api.github.com/repos/o/r"
                 (self_headers single_shot_collector) [])
              0 0 start (rate_limit_response "99999999999999") "99999999999999"
              99999999999999)
    as (s' & Hrun & Hsleeps & Hsent);
    [vm_compute; discriminate|reflexivity|reflexivity|reflexivity|reflexivity
    |left; reflexivity|].
  exists s'. split; [exact Hrun|]. split; [exact Hsleeps|exact Hsent].
Qed.

(** C1 (the code departs from it): a 404 without rate-limit headers is not
    raised at once.  The collector of [main] sends the request four times
    and sleeps 5, 10 and 20 seconds in between before the [HTTPError]
    comes out. *)
Theorem http_error_is_retried :
  let r := _make_request (always (Responded not_found)) (frozen 0) int_of_digits posix collector
             "https://api.github.com/repos/o/r" "GET" [] start in
  fst r = Raise (HTTPError not_found) /\
  sleeps (trace (snd r)) = [inject_Z 5; inject_Z 10; inject_Z 20] /\
  sent (snd r) = 4%nat.
Proof.
  vm_compute. repeat split.
Qed.

(** ** The traffic guards *)

Section TrafficProperties.

Variable net : nat -> Request -> attempt.
Variable clock : nat -> Q.
Variable py_int : string -> option Z.
Variable platform : Platform.
Variable self : GitHubMetricsCollector.

Abbreviation call := (fun url => _make_request net clock py_int platform self url "GET" []).
Abbreviation traffic := (get_traffic_data net clock py_int platform self).

(** The guard in terms of the outcome of its call. *)
Lemma guarded_fetch_unfold (url : string) (s : state) :
  guarded_fetch net clock py_int platform self url s =
    match call url s with
    | (Return r, s1) => json r s1
    | (Raise e, s1) =>
        if is_HTTPError e then (Return zero_counts, logged_at WARNING s1)
        else (Raise e, s1)
    | (OutOfFuel, s1) => (OutOfFuel, s1)
    end.
Proof.
  unfold guarded_fetch, try_except, bind.
  destruct (call url s) as [[r|e|] s1]; try reflexivity.
  unfold json. destruct (json_body r); reflexivity.
Qed.

Lemma guarded_fetch_value (url : string) (s : state) (o : outcome Response)
    (s1 : state) (v : pyval) :
  call url s = (o, s1) ->
  guarded_value o = Some v ->
  guarded_fetch net clock py_int platform self url s = (Return v, guarded_state o s1).
Proof.
  intros Hcall Hv. rewrite guarded_fetch_unfold, Hcall.
  destruct o as [r|e|]; cbn in *; try discriminate.
  - unfold json. now rewrite Hv.
  - destruct e; cbn in *; try discriminate. now simplify_eq.
Qed.

Lemma guarded_fetch_propagates (url : string) (s : state) (e : exn) (s1 : state) :
  call url s = (Raise e, s1) ->
  is_HTTPError e = false ->
  guarded_fetch net clock py_int platform self url s = (Raise e, s1).
Proof.
  intros Hcall He. rewrite guarded_fetch_unfold, Hcall. now rewrite He.
Qed.

(** The counters reported for a call are those of the value its guard
    holds. *)
Lemma reported_counts_value (o : outcome Response) (count uniques : pyval) :
  reported_counts o count uniques ->
  exists v, guarded_value o = Some v /\
    dict_get v "count" (VInt 0) = ret count /\
    dict_get v "uniques" (VInt 0) = ret uniques.
Proof.
  intros [(r & -> & -> & ->)|(r & m & -> & Hjson & -> & ->)].
  - exists zero_counts. repeat split.
  - exists (VDict m). cbn. now rewrite Hjson.
Qed.

(** C2: let the views call end with outcome [ov].  An exception that is
    not an [HTTPError] (a network error, a [RateLimitError]) leaves
    [get_traffic_data] as it is.  Otherwise the views counters are 0 and 0
    if the call raised [HTTPError], and the [count] and [uniques] of the
    decoded object if it returned; the clones call is then made, whatever
    the views call did, and is treated the same way on its own outcome
    [oc]: its other exceptions propagate, and the dictionary returned holds
    the two views counters and the two clones counters, each pair zero
    exactly when its own call raised [HTTPError] and the response's own
    otherwise. *)
Theorem traffic_guards_independent
    (owner repo : string) (s : state) (ov : outcome Response) (s1 : state) :
  call (views_url self owner repo) s = (ov, s1) ->
  (forall e, ov = Raise e -> is_HTTPError e = false ->
     traffic owner repo s = (Raise e, s1)) /\
  (forall total_views unique_visitors,
     reported_counts ov total_views unique_visitors ->
     forall oc s2,
       call (clones_url self owner repo) (guarded_state ov s1) = (oc, s2) ->
       (forall e, oc = Raise e -> is_HTTPError e = false ->
          traffic owner repo s = (Raise e, s2)) /\
       (forall total_clones unique_cloners,
          reported_counts oc total_clones unique_cloners ->
          traffic owner repo s =
            (Return (<["total_views" := total_views]>
                       (<["unique_visitors" := unique_visitors]>
                          (<["total_clones" := total_clones]>
                             (<["unique_cloners" := unique_cloners]> ∅)))),
             guarded_state oc s2))).
Proof.
  intros Hv. split.
  - intros e -> He. unfold get_traffic_data, bind.
    now rewrite (guarded_fetch_propagates _ _ _ _ Hv He).
  - intros total_views unique_visitors Hviews oc s2 Hc.
    apply reported_counts_value in Hviews as (vd & Hvd & Hv1 & Hv2).
    split.
    + intros e -> He. unfold get_traffic_data, bind.
      rewrite (guarded_fetch_value _ _ _ _ _ Hv Hvd).
      now rewrite (guarded_fetch_propagates _ _ _ _ Hc He).
    + intros total_clones unique_cloners Hclones.
      apply reported_counts_value in Hclones as (cd & Hcd & Hc1 & Hc2).
      unfold get_traffic_data, bind.
      rewrite (guarded_fetch_value _ _ _ _ _ Hv Hvd).
      rewrite (guarded_fetch_value _ _ _ _ _ Hc Hcd).
      unfold traffic_summary, bind. now rewrite Hv1, Hv2, Hc1, Hc2.
Qed.

(** The default counts as zero views or clones and zero unique visitors. *)
Lemma zero_counts_summary (key : string) :
  key = "count" \/ key = "uniques" ->
  dict_get zero_counts key (VInt 0) = ret (VInt 0).
Proof. intros [->| ->]; reflexivity. Qed.

End TrafficProperties.

(** ** The combined record *)

Section CollectProperties.

Variable net : nat -> Request -> attempt.
Variable clock : nat -> Q.
Variable py_int : string -> option Z.
Variable platform : Platform.
Variable isoformat : Q -> string.
Variable self : GitHubMetricsCollector.

Abbreviation basic := (get_repo_basic_metrics net clock py_int platform self).
Abbreviation traffic_data := (get_traffic_data net clock py_int platform self).
Abbreviation forks := (get_fork_details net clock py_int platform self).
Abbreviation collect := (collect_all_metrics net clock py_int platform isoformat self).

(** The five fields [get_repo_basic_metrics] returns. *)
Lemma basic_metrics_fields (owner repo : string) (s s1 : state) (b : gmap string pyval) :
  basic owner repo s = (Return b, s1) ->
  exists v1 v2 v3 v4 v5,
    b = <["stars" := v1]> (<["forks" := v2]> (<["watchers" := v3]>
          (<["open_issues" := v4]> (<["last_updated" := v5]> ∅)))).
Proof.
  unfold get_repo_basic_metrics, bind, json, getitem, ret, raise.
  intros H. repeat (case_match; simplify_eq/=). eauto 10.
Qed.

(** The four fields [get_traffic_data] returns. *)
Lemma traffic_data_fields (owner repo : string) (s s1 : state) (t : gmap string pyval) :
  traffic_data owner repo s = (Return t, s1) ->
  exists v1 v2 v3 v4,
    t = <["total_views" := v1]> (<["unique_visitors" := v2]>
          (<["total_clones" := v3]> (<["unique_cloners" := v4]> ∅))).
Proof.
  unfold get_traffic_data, traffic_summary, bind, dict_get, ret, raise.
  intros H. repeat (case_match; simplify_eq/=). eauto 10.
Qed.

Lemma collect_unfold (owner repo : string) (s : state) :
  collect owner repo s =
    match (do basic_metrics <- basic owner repo;
           do traffic <- traffic_data owner repo;
           do fork_data <- forks owner repo;
           do timestamp <- now_isoformat clock isoformat;
           ret (metrics_record timestamp (VStr (owner ++ "/" ++ repo)%string)
                  basic_metrics traffic fork_data)) (logged_at INFO s) with
    | (Raise e, s') => (Raise e, logged_at ERROR s')
    | r => r
    end.
Proof.
  unfold collect_all_metrics, try_except, bind at 1, log, emit. cbn.
  fold (logged_at INFO s).
  match goal with |- match ?c with _ => _ end = _ => destruct c as [[r|e|] s'] end;
    reflexivity.
Qed.

(** C6: the three fetchers run in the order basic metrics, traffic, fork
    details, each from the state its predecessor left.  An exception of
    any of them is logged and raised again by [collect_all_metrics], the
    later fetchers are not run and no record is returned.  When all three
    succeed the record holds the timestamp, the repository identity, every
    field the fetchers returned, the fork details and their number as
    [fork_count]. *)
Theorem collect_all_metrics_sequence (owner repo : string) (s : state) :
  let s0 := logged_at INFO s in
  (forall e s1,
     basic owner repo s0 = (Raise e, s1) ->
     collect owner repo s = (Raise e, logged_at ERROR s1)) /\
  (forall b s1 e s2,
     basic owner repo s0 = (Return b, s1) ->
     traffic_data owner repo s1 = (Raise e, s2) ->
     collect owner repo s = (Raise e, logged_at ERROR s2)) /\
  (forall b s1 t s2 e s3,
     basic owner repo s0 = (Return b, s1) ->
     traffic_data owner repo s1 = (Return t, s2) ->
     forks owner repo s2 = (Raise e, s3) ->
     collect owner repo s = (Raise e, logged_at ERROR s3)) /\
  (forall b s1 t s2 f s3,
     basic owner repo s0 = (Return b, s1) ->
     traffic_data owner repo s1 = (Return t, s2) ->
     forks owner repo s2 = (Return f, s3) ->
     exists record,
       collect owner repo s
         = (Return record, mkState (sent s3) (S (ticks s3)) (trace s3)) /\
       record !! "timestamp" = Some (VStr (isoformat (clock (ticks s3)))) /\
       record !! "repository" = Some (VStr (owner ++ "/" ++ repo)%string) /\
       record !! "fork_count" = Some (VInt (Z.of_nat (length f))) /\
       record !! "fork_details" = Some (VList f) /\
       (forall k v, b !! k = Some v -> record !! k = Some v) /\
       (forall k v, t !! k = Some v -> record !! k = Some v)).
Proof.
  intros s0. repeat split.
  - intros e s1 Hb. rewrite collect_unfold. unfold bind at 1. fold s0. now rewrite Hb.
  - intros b s1 e s2 Hb Ht. rewrite collect_unfold. unfold bind. fold s0.
    now rewrite Hb, Ht.
  - intros b s1 t s2 e s3 Hb Ht Hf. rewrite collect_unfold. unfold bind. fold s0.
    now rewrite Hb, Ht, Hf.
  - intros b s1 t s2 f s3 Hb Ht Hf.
    destruct (basic_metrics_fields _ _ _ _ _ Hb) as (b1 & b2 & b3 & b4 & b5 & ->).
    destruct (traffic_data_fields _ _ _ _ _ Ht) as (t1 & t2 & t3 & t4 & ->).
    eexists. split.
    { rewrite collect_unfold. unfold bind. fold s0. rewrite Hb, Ht, Hf.
      unfold now_isoformat, bind, time_time, ret. reflexivity. }
    unfold metrics_record.
    split; [vm_compute; reflexivity|]. split; [vm_compute; reflexivity|].
    split; [now rewrite lookup_insert_ne, lookup_insert_eq|].
    split; [now rewrite lookup_insert_eq|]. split.
    + intros k v Hk.
      repeat (apply lookup_insert_Some in Hk as [[<- <-]|[_ Hk]];
              [vm_compute; reflexivity|]).
      now rewrite lookup_empty in Hk.
    + intros k v Hk.
      repeat (apply lookup_insert_Some in Hk as [[<- <-]|[_ Hk]];
              [vm_compute; reflexivity|]).
      now rewrite lookup_empty in Hk.
Qed.

End CollectProperties.

(** ** The fetchers *)

Section Fetchers.

Variable net : nat -> Request -> attempt.
Variable clock : nat -> Q.
Variable py_int : string -> option Z.
Variable platform : Platform.
Variable self : GitHubMetricsCollector.

Abbreviation call := (fun url => _make_request net clock py_int platform self url "GET" []).
Abbreviation basic := (get_repo_basic_metrics net clock py_int platform self).
Abbreviation traffic := (get_traffic_data net clock py_int platform self).
Abbreviation forks := (get_fork_details net clock py_int platform self).

(** X8: the mapping of [get_repo_basic_metrics]: stars from [stargazers_count],
    forks from [forks_count], watchers from [subscribers_count], open
    issues from [open_issues_count], last update from [updated_at]; the
    call is the only effect. *)
Theorem basic_metrics_mapping
    (owner repo : string) (s s1 : state) (resp : Response) (m : gmap string pyval)
    (stars forks_count watchers open_issues updated_at : pyval) :
  call (repo_url self owner repo) s = (Return resp, s1) ->
  json_body resp = Some (VDict m) ->
  m !! "stargazers_count" = Some stars ->
  m !! "forks_count" = Some forks_count ->
  m !! "subscribers_count" = Some watchers ->
  m !! "open_issues_count" = Some open_issues ->
  m !! "updated_at" = Some updated_at ->
  basic owner repo s =
    (Return (<["stars" := stars]> (<["forks" := forks_count]> (<["watchers" := watchers]>
               (<["open_issues" := open_issues]> (<["last_updated" := updated_at]> ∅))))),
     s1).
Proof.
  intros Hcall Hjson H1 H2 H3 H4 H5.
  unfold get_repo_basic_metrics, bind, json, getitem, ret.
  now rewrite Hcall, Hjson, H1, H2, H3, H4, H5.
Qed.

(** X9: the first of the five keys that the repository object lacks comes out
    as a [KeyError]; no metrics are returned. *)
Theorem basic_metrics_missing_key
    (owner repo : string) (s s1 : state) (resp : Response) (m : gmap string pyval)
    (present rest : list string) (key : string) :
  call (repo_url self owner repo) s = (Return resp, s1) ->
  json_body resp = Some (VDict m) ->
  basic_keys = (present ++ key :: rest)%list ->
  Forall (fun k => is_Some (m !! k)) present ->
  m !! key = None ->
  basic owner repo s = (Raise (KeyError key), s1).
Proof.
  intros Hcall Hjson Hkeys Hpresent Hkey.
  unfold get_repo_basic_metrics, bind, json, getitem, ret, raise.
  rewrite Hcall, Hjson. unfold basic_keys in Hkeys.
  repeat (destruct present as [|? present];
          [injection Hkeys as <- <-; now rewrite Hkey|];
          injection Hkeys as <- Hkeys;
          apply Forall_cons in Hpresent as [[? ->] Hpresent]).
  now destruct present.
Qed.

(** X10: A body that is not JSON makes [get_repo_basic_metrics] raise the
    decoding error, and JSON that is not an object a [TypeError]. *)
Theorem basic_metrics_bad_body
    (owner repo : string) (s s1 : state) (resp : Response) :
  call (repo_url self owner repo) s = (Return resp, s1) ->
  (json_body resp = None -> basic owner repo s = (Raise JSONDecodeError, s1)) /\
  (forall v, json_body resp = Some v -> (forall m, v <> VDict m) ->
     basic owner repo s = (Raise TypeError, s1)).
Proof.
  intros Hcall. unfold get_repo_basic_metrics, bind, json, getitem, ret, raise.
  rewrite Hcall. split.
  - now intros ->.
  - intros v -> Hnot. destruct v; try reflexivity. now destruct (Hnot entries).
Qed.

(** X11: two successful sub-resources: a counter the response does not hold
    counts as zero. *)
Theorem traffic_missing_counters_default_to_zero
    (owner repo : string) (s s1 s2 : state) (views clones : Response)
    (mv mc : gmap string pyval) :
  call (views_url self owner repo) s = (Return views, s1) ->
  json_body views = Some (VDict mv) ->
  call (clones_url self owner repo) s1 = (Return clones, s2) ->
  json_body clones = Some (VDict mc) ->
  traffic owner repo s =
    (Return (<["total_views" := default (VInt 0) (mv !! "count")]>
              (<["unique_visitors" := default (VInt 0) (mv !! "uniques")]>
                (<["total_clones" := default (VInt 0) (mc !! "count")]>
                  (<["unique_cloners" := default (VInt 0) (mc !! "uniques")]> ∅)))),
     s2).
Proof.
  intros Hv Hjv Hc Hjc.
  unfold get_traffic_data, bind.
  rewrite (guarded_fetch_value net clock py_int platform self _ s (Return views) s1 (VDict mv) Hv Hjv).
  cbn [guarded_state].
  rewrite (guarded_fetch_value net clock py_int platform self _ s1 (Return clones) s2 (VDict mc) Hc Hjc).
  reflexivity.
Qed.

(** X12: A views body that is JSON but not an object is not covered by the
    guard: once the clones sub-resource has been fetched, the
    [AttributeError] of [.get] leaves [get_traffic_data]. *)
Theorem traffic_views_not_an_object
    (owner repo : string) (s s1 s2 : state) (views : Response) (v : pyval)
    (oc : outcome Response) (cd : pyval) :
  call (views_url self owner repo) s = (Return views, s1) ->
  json_body views = Some v ->
  (forall m, v <> VDict m) ->
  call (clones_url self owner repo) s1 = (oc, s2) ->
  guarded_value oc = Some cd ->
  traffic owner repo s = (Raise AttributeError, guarded_state oc s2).
Proof.
  intros Hv Hjv Hnot Hc Hcd.
  unfold get_traffic_data, bind.
  rewrite (guarded_fetch_value net clock py_int platform self _ s (Return views) s1 v Hv Hjv).
  cbn [guarded_state].
  rewrite (guarded_fetch_value net clock py_int platform self _ s1 oc s2 cd Hc Hcd).
  unfold traffic_summary, bind, dict_get.
  destruct v; try reflexivity. now destruct (Hnot entries).
Qed.

(** [fork_entry] reads its argument and nothing else. *)
Lemma fork_entry_returns (fork entry : pyval) (s : state) :
  fork_summary fork entry -> fork_entry fork s = (Return entry, s).
Proof.
  intros (m & o & login & c & u & st & -> & H1 & H2 & H3 & H4 & H5 & ->).
  unfold fork_entry, bind, getitem, ret. now rewrite H1, H2, H3, H4, H5.
Qed.

Lemma fork_entry_inv (fork entry : pyval) (s s' : state) :
  fork_entry fork s = (Return entry, s') -> s' = s /\ fork_summary fork entry.
Proof.
  unfold fork_entry, bind, getitem, ret, raise. intros H.
  repeat (case_match; simplify_eq/=). split; [reflexivity|].
  unfold fork_summary. eauto 15.
Qed.

Lemma fork_entry_state (fork : pyval) (s : state) : snd (fork_entry fork s) = s.
Proof.
  unfold fork_entry, bind, getitem, ret, raise.
  repeat (case_match; simplify_eq/=); reflexivity.
Qed.

Lemma comprehension_fork_entries (items : list pyval) :
  forall f s s',
    comprehension fork_entry items s = (Return f, s') <->
    s' = s /\ Forall2 fork_summary items f.
Proof.
  induction items as [|fork items IH]; intros f s s'; cbn.
  - unfold ret. split.
    + intros [= <- <-]. split; [reflexivity|constructor].
    + intros [-> H]. inversion H. reflexivity.
  - unfold bind at 1. split.
    + destruct (fork_entry fork s) as [[entry|e|] s1] eqn:He; try discriminate.
      apply fork_entry_inv in He as [-> He].
      unfold bind, ret.
      destruct (comprehension fork_entry items s) as [[f'|e|] s2] eqn:Hrest;
        try discriminate.
      apply IH in Hrest as [-> Hrest]. intros [= <- <-].
      split; [reflexivity|]. now constructor.
    + intros [-> H]. inversion H as [|? entry ? f' He Hrest]; subst.
      rewrite (fork_entry_returns _ _ s He). unfold bind, ret.
      assert (comprehension fork_entry items s = (Return f', s)) as -> by now apply IH.
      reflexivity.
Qed.

(** X13: [get_fork_details] returns exactly when every fork of the array has
    the fields it reads, and then with one summary per fork, in the order
    of the response; one fork without them and no list comes back. *)
Theorem fork_details_one_summary_per_fork
    (owner repo : string) (s s1 s' : state) (resp : Response)
    (items f : list pyval) :
  call (repo_url self owner repo ++ "/forks")%string s = (Return resp, s1) ->
  json_body resp = Some (VList items) ->
  forks owner repo s = (Return f, s') <->
  s' = s1 /\ Forall2 fork_summary items f.
Proof.
  intros Hcall Hjson.
  unfold get_fork_details, bind at 1. rewrite Hcall.
  unfold bind at 1, json. rewrite Hjson. unfold ret at 1, bind at 1, iterate, ret at 1.
  apply comprehension_fork_entries.
Qed.

(** X14: A body that is a JSON object instead of an array: the empty object
    gives the empty list, any other object a [TypeError], because the loop
    then runs over its keys. *)
Theorem fork_details_of_an_object
    (owner repo : string) (s s1 : state) (resp : Response) (m : gmap string pyval) :
  call (repo_url self owner repo ++ "/forks")%string s = (Return resp, s1) ->
  json_body resp = Some (VDict m) ->
  forks owner repo s = (if decide (m = ∅) then Return [] else Raise TypeError, s1).
Proof.
  intros Hcall Hjson.
  unfold get_fork_details, bind at 1. rewrite Hcall.
  unfold bind at 1, json. rewrite Hjson. unfold ret at 1, bind at 1, iterate, ret at 1.
  destruct (decide (m = ∅)) as [->|Hne].
  - now rewrite map_to_list_empty.
  - destruct (map_to_list m) as [|[k v] l] eqn:Hl.
    + now apply map_to_list_empty_iff in Hl.
    + reflexivity.
Qed.

(** X15: A body that is [null], a boolean or a number cannot be iterated. *)
Theorem fork_details_not_iterable
    (owner repo : string) (s s1 : state) (resp : Response) (v : pyval) :
  call (repo_url self owner repo ++ "/forks")%string s = (Return resp, s1) ->
  json_body resp = Some v ->
  (forall items, v <> VList items) ->
  (forall m, v <> VDict m) ->
  (forall t, v <> VStr t) ->
  forks owner repo s = (Raise TypeError, s1).
Proof.
  intros Hcall Hjson Hl Hd Hs.
  unfold get_fork_details, bind at 1. rewrite Hcall.
  unfold bind at 1, json. rewrite Hjson.
  destruct v; try reflexivity.
  - now destruct (Hs s0).
  - now destruct (Hl items).
  - now destruct (Hd entries).
Qed.

End Fetchers.

Section CollectFurther.

Variable net : nat -> Request -> attempt.
Variable clock : nat -> Q.
Variable py_int : string -> option Z.
Variable platform : Platform.
Variable isoformat : Q -> string.
Variable self : GitHubMetricsCollector.

Abbreviation basic := (get_repo_basic_metrics net clock py_int platform self).
Abbreviation traffic := (get_traffic_data net clock py_int platform self).
Abbreviation forks := (get_fork_details net clock py_int platform self).
Abbreviation collect := (collect_all_metrics net clock py_int platform isoformat self).

(** Three successful fetchers make a record. *)
Lemma collect_returns (owner repo : string) (s s1 s2 s3 : state)
    (b t : gmap string pyval) (f : list pyval) :
  basic owner repo (logged_at INFO s) = (Return b, s1) ->
  traffic owner repo s1 = (Return t, s2) ->
  forks owner repo s2 = (Return f, s3) ->
  collect owner repo s =
    (Return (metrics_record (VStr (isoformat (clock (ticks s3))))
               (VStr (owner ++ "/" ++ repo)%string) b t f),
     mkState (sent s3) (S (ticks s3)) (trace s3)).
Proof.
  intros Hb Ht Hf. rewrite collect_unfold. unfold bind. now rewrite Hb, Ht, Hf.
Qed.

(** What a successful collection went through. *)
Lemma collect_inv (owner repo : string) (s s' : state) (record : gmap string pyval) :
  collect owner repo s = (Return record, s') ->
  exists b s1 t s2 f s3,
    basic owner repo (logged_at INFO s) = (Return b, s1) /\
    traffic owner repo s1 = (Return t, s2) /\
    forks owner repo s2 = (Return f, s3) /\
    record = metrics_record (VStr (isoformat (clock (ticks s3))))
               (VStr (owner ++ "/" ++ repo)%string) b t f /\
    s' = mkState (sent s3) (S (ticks s3)) (trace s3).
Proof.
  rewrite collect_unfold. unfold bind.
  destruct (basic owner repo (logged_at INFO s)) as [[b|e|] s1] eqn:Hb; try discriminate.
  destruct (traffic owner repo s1) as [[t|e|] s2] eqn:Ht; try discriminate.
  destruct (forks owner repo s2) as [[f|e|] s3] eqn:Hf; try discriminate.
  unfold now_isoformat, bind, time_time, ret. intros [= <- <-].
  exists b, s1, t, s2, f, s3. auto.
Qed.

(** X16: A record that comes back has these thirteen fields and no other. *)
Theorem record_has_thirteen_fields
    (owner repo : string) (s s' : state) (record : gmap string pyval) :
  collect owner repo s = (Return record, s') ->
  dom record =
    list_to_set ["timestamp"; "repository"; "stars"; "forks"; "watchers"; "open_issues";
                 "last_updated"; "total_views"; "unique_visitors"; "total_clones";
                 "unique_cloners"; "fork_count"; "fork_details"].
Proof.
  intros H. apply collect_inv in H as (b & s1 & t & s2 & f & s3 & Hb & Ht & _ & -> & _).
  apply basic_metrics_fields in Hb as (b1 & b2 & b3 & b4 & b5 & ->).
  apply traffic_data_fields in Ht as (t1 & t2 & t3 & t4 & ->).
  unfold metrics_record.
  rewrite !dom_insert_L, !dom_union_L, !dom_insert_L, !dom_empty_L.
  cbn [list_to_set foldr]. set_solver.
Qed.

(** In a record that comes back, [fork_count] is the length of
    [fork_details], and both come from [get_fork_details]. *)
Lemma record_fork_count (owner repo : string) (s s' : state) (record : gmap string pyval) :
  collect owner repo s = (Return record, s') ->
  exists f,
    record !! "fork_details" = Some (VList f) /\
    record !! "fork_count" = Some (VInt (Z.of_nat (length f))).
Proof.
  intros H. apply collect_inv in H as (b & s1 & t & s2 & f & s3 & _ & _ & _ & -> & _).
  exists f. unfold metrics_record. split.
  - now rewrite lookup_insert_eq.
  - now rewrite lookup_insert_ne, lookup_insert_eq.
Qed.

End CollectFurther.

(** ** What goes over the wire *)

Lemma reads_only_ret {A} (a : A) : reads_only (ret a).
Proof. now intros s. Qed.

Lemma reads_only_raise {A} (e : exn) : reads_only (@raise A e).
Proof. now intros s. Qed.

Lemma reads_only_bind {A B} (c : M A) (k : A -> M B) :
  reads_only c -> (forall a, reads_only (k a)) -> reads_only (bind c k).
Proof.
  intros Hc Hk s. unfold bind. specialize (Hc s).
  destruct (c s) as [[a|e|] s1]; cbn in *; subst; auto. apply Hk.
Qed.

Lemma reads_only_getitem (d : pyval) (key : string) : reads_only (getitem d key).
Proof. intros s. unfold getitem. repeat case_match; reflexivity. Qed.

Lemma reads_only_dict_get (d : pyval) (key : string) (v : pyval) :
  reads_only (dict_get d key v).
Proof. intros s. unfold dict_get. repeat case_match; reflexivity. Qed.

Lemma reads_only_json (r : Response) : reads_only (json r).
Proof. intros s. unfold json. case_match; reflexivity. Qed.

Lemma reads_only_iterate (v : pyval) : reads_only (iterate v).
Proof. intros s. unfold iterate. case_match; reflexivity. Qed.

Lemma reads_only_fork_entry (fork : pyval) : reads_only (fork_entry fork).
Proof.
  unfold fork_entry.
  repeat (apply reads_only_bind; [apply reads_only_getitem|intros ?]).
  apply reads_only_ret.
Qed.

Lemma reads_only_comprehension {A B} (f : A -> M B) (xs : list A) :
  (forall x, reads_only (f x)) -> reads_only (comprehension f xs).
Proof.
  intros Hf. induction xs as [|x xs IH]; cbn.
  - apply reads_only_ret.
  - apply reads_only_bind; [apply Hf|]. intros y.
    apply reads_only_bind; [apply IH|]. intros ys. apply reads_only_ret.
Qed.

Lemma reads_only_traffic_summary (v c : pyval) : reads_only (traffic_summary v c).
Proof.
  unfold traffic_summary.
  repeat (apply reads_only_bind; [apply reads_only_dict_get|intros ?]).
  apply reads_only_ret.
Qed.

Lemma bind_reads_only_state {A B} (c : M A) (k : A -> M B) (s : state) :
  (forall a, reads_only (k a)) -> snd (bind c k s) = snd (c s).
Proof.
  intros Hk. unfold bind. destruct (c s) as [[a|e|] s1]; cbn; auto. apply Hk.
Qed.

Section Wire.

Variable net : nat -> Request -> attempt.
Variable clock : nat -> Q.
Variable py_int : string -> option Z.
Variable platform : Platform.
Variable self : GitHubMetricsCollector.

Section OneCall.

Variable req : Request.

Abbreviation loop := (while_retries net clock py_int platform self req).
Abbreviation body := (try_body net clock py_int platform self req).

Lemma body_requests (retries : Z) (s : state) :
  requests (trace (snd (body retries s))) = (requests (trace s) ++ [req])%list.
Proof.
  unfold try_body, bind, requests_request, log, reset_header, time_time,
    time_sleep, RateLimitError_init, raise_for_status, emit, raise, ret.
  repeat (case_match; simplify_eq/=);
    rewrite ?requests_app; cbn; rewrite ?app_nil_r; reflexivity.
Qed.

Lemma loop_requests (fuel : nat) :
  forall retries s,
    exists n,
      requests (trace (snd (loop fuel retries s)))
        = (requests (trace s) ++ replicate n req)%list.
Proof.
  induction fuel as [|fuel IH]; intros retries s; cbn.
  - exists 0%nat. rewrite app_nil_r. now destruct (retries <=? max_retries self).
  - destruct (retries <=? max_retries self); [|exists 0%nat; now rewrite app_nil_r].
    pose proof (body_requests retries s) as Hb.
    destruct (body retries s) as [[[r|retries']|e|] s1]; cbn [fst snd] in *.
    + now exists 1%nat.
    + destruct (IH retries' s1) as [n Hn]. exists (S n).
      rewrite Hn, Hb, <- app_assoc. reflexivity.
    + destruct (is_RequestException e); [|now exists 1%nat].
      destruct (retries <? max_retries self);
        unfold bind, log, time_sleep, emit, raise; cbn [fst snd].
      * destruct (sleep_refusal _ _); cbn [fst snd].
        -- exists 1%nat. cbn. rewrite requests_app, Hb. cbn. now rewrite app_nil_r.
        -- match goal with |- context [loop fuel ?r ?s'] =>
             destruct (IH r s') as [n Hn] end.
           exists (S n). rewrite Hn. cbn. rewrite !requests_app, Hb. cbn.
           now rewrite !app_nil_r, <- app_assoc.
      * exists 1%nat. cbn. rewrite requests_app, Hb. cbn. now rewrite app_nil_r.
    + now exists 1%nat.
Qed.

End OneCall.

Lemma make_request_requests
    (url method : string) (kwargs : list (string * pyval)) (s : state) :
  exists n,
    requests (trace (snd (_make_request net clock py_int platform self url method kwargs s)))
      = (requests (trace s)
           ++ replicate n (mkRequest method url (self_headers self) kwargs))%list.
Proof. apply loop_requests. Qed.

(** X7: A call sends one request only, as often as it tries: the method, the
    URL and the arguments it was given, under the headers of the collector. *)
Theorem make_request_repeats_one_request
    (url method : string) (kwargs : list (string * pyval)) (s : state) :
  exists n,
    requests (trace (snd (_make_request net clock py_int platform self url method kwargs s)))
      = (requests (trace s)
           ++ replicate n (mkRequest method url (self_headers self) kwargs))%list.
Proof. apply loop_requests. Qed.

Abbreviation basic := (get_repo_basic_metrics net clock py_int platform self).
Abbreviation traffic := (get_traffic_data net clock py_int platform self).
Abbreviation forks := (get_fork_details net clock py_int platform self).

Lemma basic_requests (owner repo : string) (s : state) :
  exists n,
    requests (trace (snd (basic owner repo s)))
      = (requests (trace s) ++ replicate n (get self (repo_url self owner repo)))%list.
Proof.
  unfold get_repo_basic_metrics. rewrite bind_reads_only_state.
  - apply make_request_requests.
  - intros response. apply reads_only_bind; [apply reads_only_json|intros data].
    repeat (apply reads_only_bind; [apply reads_only_getitem|intros ?]).
    apply reads_only_ret.
Qed.

Lemma forks_requests (owner repo : string) (s : state) :
  exists n,
    requests (trace (snd (forks owner repo s)))
      = (requests (trace s)
           ++ replicate n (get self (repo_url self owner repo ++ "/forks")%string))%list.
Proof.
  unfold get_fork_details. rewrite bind_reads_only_state.
  - apply make_request_requests.
  - intros response. apply reads_only_bind; [apply reads_only_json|intros data].
    apply reads_only_bind; [apply reads_only_iterate|intros items].
    apply reads_only_comprehension, reads_only_fork_entry.
Qed.

Lemma guarded_fetch_requests (url : string) (s : state) :
  exists n,
    requests (trace (snd (guarded_fetch net clock py_int platform self url s)))
      = (requests (trace s) ++ replicate n (get self url))%list.
Proof.
  destruct (make_request_requests url "GET" [] s) as [n Hn].
  exists n. rewrite guarded_fetch_unfold.
  destruct (_make_request net clock py_int platform self url "GET" [] s) as [[r|e|] s1];
    cbn [snd] in Hn.
  - now rewrite reads_only_json.
  - destruct (is_HTTPError e); [|exact Hn].
    cbn. rewrite requests_app, Hn. cbn. now rewrite app_nil_r.
  - exact Hn.
Qed.

Lemma traffic_requests (owner repo : string) (s : state) :
  exists n m,
    requests (trace (snd (traffic owner repo s)))
      = (requests (trace s) ++ replicate n (get self (views_url self owner repo))
           ++ replicate m (get self (clones_url self owner repo)))%list.
Proof.
  unfold get_traffic_data, bind at 1.
  destruct (guarded_fetch_requests (views_url self owner repo) s) as [n Hn].
  destruct (guarded_fetch net clock py_int platform self (views_url self owner repo) s)
    as [[v|e|] s1]; cbn [snd] in Hn;
    [|exists n, 0%nat; now rewrite app_nil_r..].
  rewrite bind_reads_only_state by (intros; apply reads_only_traffic_summary).
  destruct (guarded_fetch_requests (clones_url self owner repo) s1) as [m Hm].
  exists n, m. now rewrite Hm, Hn, <- app_assoc.
Qed.

(** X17: everything a collection sends: requests for the repository, then for
    its views, then for its clones, then for its forks, each endpoint as
    often as its call tried, and nothing else. *)
Theorem collect_requests_in_order
    (isoformat : Q -> string) (owner repo : string) (s : state) :
  exists n1 n2 n3 n4,
    requests (trace (snd (collect_all_metrics net clock py_int platform isoformat self owner repo s)))
      = (requests (trace s)
           ++ replicate n1 (get self (repo_url self owner repo))
           ++ replicate n2 (get self (views_url self owner repo))
           ++ replicate n3 (get self (clones_url self owner repo))
           ++ replicate n4 (get self (repo_url self owner repo ++ "/forks")%string))%list.
Proof.
  rewrite collect_unfold. unfold bind.
  destruct (basic_requests owner repo (logged_at INFO s)) as [n1 H1].
  replace (requests (trace (logged_at INFO s))) with (requests (trace s)) in H1
    by (cbn; rewrite requests_app; cbn; now rewrite app_nil_r).
  destruct (basic owner repo (logged_at INFO s)) as [[b|e|] s1]; cbn [snd] in H1.
  2:{ exists n1, 0%nat, 0%nat, 0%nat. cbn. rewrite requests_app, H1. cbn.
      now rewrite !app_nil_r. }
  2:{ exists n1, 0%nat, 0%nat, 0%nat. cbn. rewrite H1. now rewrite !app_nil_r. }
  destruct (traffic_requests owner repo s1) as (n2 & n3 & H2).
  destruct (traffic owner repo s1) as [[t|e|] s2]; cbn [snd] in H2.
  2:{ exists n1, n2, n3, 0%nat. cbn. rewrite requests_app, H2, H1. cbn.
      now rewrite !app_nil_r, <- !app_assoc. }
  2:{ exists n1, n2, n3, 0%nat. cbn. rewrite H2, H1.
      now rewrite !app_nil_r, <- !app_assoc. }
  destruct (forks_requests owner repo s2) as [n4 H4].
  destruct (forks owner repo s2) as [[f|e|] s3]; cbn [snd] in H4;
    exists n1, n2, n3, n4; unfold now_isoformat, bind, time_time, ret;
    cbn [fst snd trace logged_at]; rewrite ?requests_app, H4, H2, H1; cbn;
    now rewrite ?app_nil_r, <- !app_assoc.
Qed.

End Wire.

(** ** A remote end that does not change *)

(** Outcomes related by [R] from any two starting states: the relation
    passes through a bind whose first part is stateless. *)
Lemma bind_related {A B} (R : outcome B -> outcome B -> Prop)
    (c : M A) (k : A -> M B) :
  stateless c ->
  (forall a s s', R (fst (k a s)) (fst (k a s'))) ->
  (forall e, R (Raise e) (Raise e)) ->
  R OutOfFuel OutOfFuel ->
  forall s s', R (fst (bind c k s)) (fst (bind c k s')).
Proof.
  intros Hc Hk Hraise Hfuel s s'. unfold bind.
  specialize (Hc s s').
  destruct (c s) as [[a|e|] s1], (c s') as [[a'|e'|] s1'];
    cbn in Hc; simplify_eq; cbn; auto.
Qed.

Lemma stateless_bind {A B} (c : M A) (k : A -> M B) :
  stateless c -> (forall a, stateless (k a)) -> stateless (bind c k).
Proof.
  intros Hc Hk s s'. apply (bind_related eq); auto.
Qed.

Lemma stateless_ret {A} (a : A) : stateless (ret a).
Proof. now intros s s'. Qed.

Lemma stateless_raise {A} (e : exn) : stateless (@raise A e).
Proof. now intros s s'. Qed.

Lemma stateless_log (lvl : level) : stateless (log lvl).
Proof. now intros s s'. Qed.

Lemma stateless_try_except {A} (c : M A) (catches : exn -> bool) (h : exn -> M A) :
  stateless c -> (forall e, stateless (h e)) -> stateless (try_except c catches h).
Proof.
  intros Hc Hh s s'. unfold try_except. specialize (Hc s s').
  destruct (c s) as [[a|e|] s1], (c s') as [[a'|e'|] s1'];
    cbn in Hc; simplify_eq; cbn; auto.
  destruct (catches e'); [apply Hh|reflexivity].
Qed.

Lemma stateless_getitem (d : pyval) (key : string) : stateless (getitem d key).
Proof. intros s s'. unfold getitem. repeat case_match; reflexivity. Qed.

Lemma stateless_dict_get (d : pyval) (key : string) (v : pyval) :
  stateless (dict_get d key v).
Proof. intros s s'. unfold dict_get. repeat case_match; reflexivity. Qed.

Lemma stateless_json (r : Response) : stateless (json r).
Proof. intros s s'. unfold json. case_match; reflexivity. Qed.

Lemma stateless_iterate (v : pyval) : stateless (iterate v).
Proof. intros s s'. unfold iterate. case_match; reflexivity. Qed.

Lemma stateless_comprehension {A B} (f : A -> M B) (xs : list A) :
  (forall x, stateless (f x)) -> stateless (comprehension f xs).
Proof.
  intros Hf. induction xs as [|x xs IH]; cbn.
  - apply stateless_ret.
  - apply stateless_bind; [apply Hf|]. intros y.
    apply stateless_bind; [apply IH|]. intros ys. apply stateless_ret.
Qed.

Lemma stateless_fork_entry (fork : pyval) : stateless (fork_entry fork).
Proof.
  unfold fork_entry.
  repeat (apply stateless_bind; [apply stateless_getitem|intros ?]).
  apply stateless_ret.
Qed.

Lemma stateless_traffic_summary (v c : pyval) : stateless (traffic_summary v c).
Proof.
  unfold traffic_summary.
  repeat (apply stateless_bind; [apply stateless_dict_get|intros ?]).
  apply stateless_ret.
Qed.

Section StableRemote.

Variable net : nat -> Request -> attempt.
Variable clock : nat -> Q.
Variable py_int : string -> option Z.
Variable platform : Platform.
Variable self : GitHubMetricsCollector.

(** Every attempt at a request is answered the same way. *)
Hypothesis stable : forall n m req, net n req = net m req.

Section OneRequest.

Variable req : Request.

Abbreviation loop := (while_retries net clock py_int platform self req).
Abbreviation body := (try_body net clock py_int platform self req).

Lemma loop_exit (fuel : nat) (retries : Z) (s : state) :
  max_retries self < retries ->
  loop fuel retries s = (Raise (Exception "Maximum retries exceeded"), s).
Proof.
  intros H. destruct fuel; cbn; now replace (retries <=? max_retries self) with false by lia.
Qed.

Lemma loop_no_fuel (retries : Z) (s : state) :
  retries <= max_retries self -> loop 0 retries s = (OutOfFuel, s).
Proof.
  intros H. cbn. now replace (retries <=? max_retries self) with true by lia.
Qed.

(** When an iteration decides the same thing from every state, and that is
    not to continue, so does the loop. *)
Lemma loop_stateless_const (o : outcome flow) :
  (forall retries s, fst (body retries s) = o) ->
  (forall retries', o <> Return (Continue retries')) ->
  forall fuel retries, stateless (loop fuel retries).
Proof.
  intros Hbody Hno fuel.
  induction fuel as [|fuel IH]; intros retries s s';
    destruct (Z.le_gt_cases retries (max_retries self)) as [Hle|Hgt];
    rewrite ?loop_exit by lia; try reflexivity.
  - now rewrite !loop_no_fuel.
  - rewrite !loop_step by exact Hle.
    pose proof (Hbody retries s) as H1. pose proof (Hbody retries s') as H2.
    destruct (body retries s) as [o1 s1], (body retries s') as [o2 s2].
    cbn in H1, H2. subst o1 o2.
    destruct o as [[r|retries']|e|]; try reflexivity.
    + now destruct (Hno retries').
    + destruct (is_RequestException e); [|reflexivity].
      destruct (retries <? max_retries self); [|reflexivity].
      unfold bind, log, time_sleep, emit, raise. cbn.
      destruct (sleep_refusal _ _); [reflexivity|]. apply IH.
Qed.

(** A remote end that keeps answering with the same rate-limited response
    makes the call end the way the constructor of [RateLimitError] does,
    after however many waits. *)
Lemma rate_limited_loop (resp : Response) (v : string) (reset_time : Z) :
  (forall s, net (sent s) req = Responded resp) ->
  rate_limited resp = true ->
  headers resp !! "X-RateLimit-Reset" = Some v ->
  py_int v = Some reset_time ->
  forall fuel retries s,
    retries <= max_retries self ->
    (Z.to_nat (max_retries self - retries + 1) <= fuel)%nat ->
    fst (loop fuel retries s) =
      Raise (match fromtimestamp platform reset_time with
             | None => RateLimitError reset_time
             | Some r => refusal_exn r
             end).
Proof.
  intros Hnet Hrl Hv Hint fuel.
  induction fuel as [|fuel IH]; intros retries s Hle Hfuel; [lia|].
  destruct (Qpos (inject_Z reset_time - clock (ticks s))) eqn:Hpos;
    [destruct (Z.lt_ge_cases retries (max_retries self)) as [Hlt|Hge]|].
  - rewrite loop_step by exact Hle.
    apply Qpos_spec in Hpos.
    rewrite (body_rate_limit_wait net clock py_int platform self req retries s resp v reset_time)
      by auto.
    apply IH; lia.
  - destruct (rate_limit_stops net clock py_int platform self req fuel retries s resp v
                reset_time Hle (Hnet s) Hrl Hv Hint) as (s' & -> & _); [left; lia|].
    reflexivity.
  - destruct (rate_limit_stops net clock py_int platform self req fuel retries s resp v
                reset_time Hle (Hnet s) Hrl Hv Hint) as (s' & -> & _); [|reflexivity].
    right. apply Qnot_lt_le. intros H. apply Qpos_spec in H. congruence.
Qed.

Lemma body_reset_unreadable (resp : Response) (retries : Z) (s : state) :
  net (sent s) req = Responded resp ->
  rate_limited resp = true ->
  match headers resp !! "X-RateLimit-Reset" with
  | None => fst (body retries s) = Raise (KeyError "X-RateLimit-Reset")
  | Some v =>
      py_int v = None ->
      fst (body retries s) = Raise (ValueError "invalid literal for int()")
  end.
Proof.
  intros Hnet Hrl.
  unfold try_body, bind, requests_request, log, reset_header, emit, raise.
  rewrite Hnet. cbn. rewrite Hrl.
  destruct (headers resp !! "X-RateLimit-Reset"); [|reflexivity].
  now intros ->.
Qed.

Lemma loop_stateless : stateless (loop (loop_fuel self) 0).
Proof.
  destruct (Z.lt_ge_cases (max_retries self) 0) as [Hneg|Hmax].
  { intros s s'. now rewrite !loop_exit by lia. }
  assert (forall s, net (sent s) req = net 0%nat req) as Hnet by (intros; apply stable).
  destruct (net 0%nat req) as [resp|cause] eqn:Ha.
  - destruct (rate_limited resp) eqn:Hrl.
    + destruct (headers resp !! "X-RateLimit-Reset") as [v|] eqn:Hv.
      * destruct (py_int v) as [t|] eqn:Hint.
        -- intros s s'.
           rewrite !(rate_limited_loop resp v t) by (auto; unfold loop_fuel; lia).
           reflexivity.
        -- apply (loop_stateless_const (Raise (ValueError "invalid literal for int()")));
             [|discriminate].
           intros retries s.
           pose proof (body_reset_unreadable resp retries s (Hnet s) Hrl) as H.
           rewrite Hv in H. auto.
      * apply (loop_stateless_const (Raise (KeyError "X-RateLimit-Reset")));
          [|discriminate].
        intros retries s.
        pose proof (body_reset_unreadable resp retries s (Hnet s) Hrl) as H.
        now rewrite Hv in H.
    + destruct ((400 <=? status_code resp) && (status_code resp <? 600)) eqn:Hst.
      * apply (loop_stateless_const (Raise (HTTPError resp))); [|discriminate].
        intros retries s.
        now rewrite (body_http_error net clock py_int platform self req retries s resp (Hnet s)).
      * apply (loop_stateless_const (Return (Returned resp))); [|discriminate].
        intros retries s.
        now rewrite (body_success net clock py_int platform self req retries s resp (Hnet s)).
  - apply (loop_stateless_const (Raise (NetworkError cause))); [|discriminate].
    intros retries s.
    now rewrite (body_network_failure net clock py_int platform self req retries s cause (Hnet s)).
Qed.

End OneRequest.

Lemma make_request_stateless (url method : string) (kwargs : list (string * pyval)) :
  stateless (_make_request net clock py_int platform self url method kwargs).
Proof. apply loop_stateless. Qed.

Variable isoformat : Q -> string.

Lemma basic_metrics_stateless (owner repo : string) :
  stateless (get_repo_basic_metrics net clock py_int platform self owner repo).
Proof.
  unfold get_repo_basic_metrics.
  apply stateless_bind; [apply make_request_stateless|intros response].
  apply stateless_bind; [apply stateless_json|intros data].
  repeat (apply stateless_bind; [apply stateless_getitem|intros ?]).
  apply stateless_ret.
Qed.

Lemma guarded_fetch_stateless (url : string) :
  stateless (guarded_fetch net clock py_int platform self url).
Proof.
  unfold guarded_fetch. apply stateless_try_except.
  - apply stateless_bind; [apply make_request_stateless|intros response].
    apply stateless_json.
  - intros e. apply stateless_bind; [apply stateless_log|intros _].
    apply stateless_ret.
Qed.

Lemma traffic_data_stateless (owner repo : string) :
  stateless (get_traffic_data net clock py_int platform self owner repo).
Proof.
  unfold get_traffic_data.
  apply stateless_bind; [apply guarded_fetch_stateless|intros views_data].
  apply stateless_bind; [apply guarded_fetch_stateless|intros clones_data].
  apply stateless_traffic_summary.
Qed.

Lemma fork_details_stateless (owner repo : string) :
  stateless (get_fork_details net clock py_int platform self owner repo).
Proof.
  unfold get_fork_details.
  apply stateless_bind; [apply make_request_stateless|intros response].
  apply stateless_bind; [apply stateless_json|intros data].
  apply stateless_bind; [apply stateless_iterate|intros items].
  apply stateless_comprehension. apply stateless_fork_entry.
Qed.

Lemma same_but_timestamp_raise (e : exn) : same_but_timestamp (Raise e) (Raise e).
Proof. reflexivity. Qed.

(** From any two states the collection ends the same way, up to the
    timestamp of the record. *)
Lemma collect_related (owner repo : string) (s s' : state) :
  same_but_timestamp
    (fst (collect_all_metrics net clock py_int platform isoformat self owner repo s))
    (fst (collect_all_metrics net clock py_int platform isoformat self owner repo s')).
Proof.
  rewrite !collect_unfold.
  match goal with
  | |- same_but_timestamp (fst (match ?c ?a with _ => _ end))
         (fst (match ?c ?b with _ => _ end)) =>
      assert (same_but_timestamp (fst (c a)) (fst (c b))) as Hrel;
      [|destruct (c a) as [[r1|e1|] s1], (c b) as [[r2|e2|] s2]; exact Hrel]
  end.
  apply bind_related; [apply basic_metrics_stateless| |apply same_but_timestamp_raise|exact I].
  intros basic_metrics. apply bind_related;
    [apply traffic_data_stateless| |apply same_but_timestamp_raise|exact I].
  intros traffic. apply bind_related;
    [apply fork_details_stateless| |apply same_but_timestamp_raise|exact I].
  intros fork_data t t'. unfold now_isoformat, bind, time_time, ret. cbn.
  unfold metrics_record.
  rewrite !(delete_insert_ne _ "timestamp" "fork_details"),
    !(delete_insert_ne _ "timestamp" "fork_count"); [|done..].
  rewrite !delete_union.
  rewrite !(delete_insert_ne _ "timestamp" "repository"); [|done..].
  now rewrite !delete_insert_eq.
Qed.

(** C8: against a remote end that answers every attempt at a request the
    same way, a second [collect_all_metrics] for the same owner and
    repository, run from the state the first one left, succeeds like the
    first and its record agrees with the first on every field other than
    [timestamp]. *)
Theorem collect_twice_differs_only_in_timestamp
    (owner repo : string) (s s1 : state) (record1 : gmap string pyval) :
  collect_all_metrics net clock py_int platform isoformat self owner repo s = (Return record1, s1) ->
  exists record2 s2,
    collect_all_metrics net clock py_int platform isoformat self owner repo s1 = (Return record2, s2) /\
    forall field, field <> "timestamp" -> record2 !! field = record1 !! field.
Proof.
  intros H1. pose proof (collect_related owner repo s s1) as Hrel.
  rewrite H1 in Hrel.
  destruct (collect_all_metrics net clock py_int platform isoformat self owner repo s1)
    as [[record2|e|] s2]; cbn in Hrel; try done.
  exists record2, s2. split; [reflexivity|].
  intros field Hne.
  rewrite <- (lookup_delete_ne record2 "timestamp" field) by done.
  rewrite <- (lookup_delete_ne record1 "timestamp" field) by done.
  now rewrite Hrel.
Qed.

End StableRemote.

(** ** Export leaves the caller's objects alone *)

Lemma keeps_bind {A B} (h0 : gmap loc obj) (c : X A) (k : A -> X B)
    (Q : A -> Prop) (R : B -> Prop) :
  keeps h0 c Q -> (forall a, Q a -> keeps h0 (k a) R) -> keeps h0 (xbind c k) R.
Proof.
  intros Hc Hk s Hs. unfold xbind.
  destruct (Hc s Hs) as [Hsub Hq].
  destruct (c s) as [[a|e|] s1]; cbn in *; [|split; [done|discriminate]..].
  apply (Hk a (Hq a eq_refl) s1 Hsub).
Qed.

Lemma keeps_try {A} (h0 : gmap loc obj) (c : X A) (h : exn -> X A) (Q : A -> Prop) :
  keeps h0 c Q -> (forall e, keeps h0 (h e) Q) -> keeps h0 (xtry c h) Q.
Proof.
  intros Hc Hh s Hs. unfold xtry.
  destruct (Hc s Hs) as [Hsub Hq].
  destruct (c s) as [[a|e|] s1]; cbn in *; [auto| |split; [done|discriminate]].
  apply (Hh e s1 Hsub).
Qed.

Lemma keeps_weaken {A} (h0 : gmap loc obj) (c : X A) (Q R : A -> Prop) :
  keeps h0 c Q -> (forall a, Q a -> R a) -> keeps h0 c R.
Proof.
  intros Hc HQR s Hs. destruct (Hc s Hs) as [Hsub Hq]. split; [done|]. auto.
Qed.

(** A step that leaves the heap as it is. *)
Lemma keeps_heap_untouched {A} (h0 : gmap loc obj) (c : X A) :
  (forall s, heap (snd (c s)) = heap s) -> keeps h0 c (fun _ => True).
Proof.
  intros Hc s Hs. rewrite Hc. split; [done|]. auto.
Qed.

Lemma keeps_ret {A} (h0 : gmap loc obj) (a : A) (Q : A -> Prop) :
  Q a -> keeps h0 (xret a) Q.
Proof. intros Ha s Hs. split; [done|]. now intros a' [= <-]. Qed.

Lemma keeps_raise {A} (h0 : gmap loc obj) (e : exn) (Q : A -> Prop) :
  keeps h0 (xraise e) Q.
Proof. intros s Hs. split; [done|discriminate]. Qed.

(** A newly allocated location holds nothing in any part of the heap. *)
Lemma fresh_outside (h h' : gmap loc obj) :
  h ⊆ h' -> h !! fresh (dom h') = None.
Proof.
  intros Hsub. apply not_elem_of_dom. intros Hin.
  apply (is_fresh (dom h')). apply (subseteq_dom _ _ Hsub). exact Hin.
Qed.

Lemma keeps_alloc (h0 : gmap loc obj) (o : obj) :
  keeps h0 (alloc o) (fun l => h0 !! l = None).
Proof.
  intros s Hs. unfold alloc. cbn. split.
  - apply insert_subseteq_r; [now apply fresh_outside|done].
  - intros a [= <-]. now apply fresh_outside.
Qed.

(** An update in place keeps [h0] when it hits an object outside [h0]. *)
Lemma keeps_store (h0 : gmap loc obj) (l : loc) (o : obj) :
  h0 !! l = None -> keeps h0 (store l o) (fun _ => True).
Proof.
  intros Hl s Hs. unfold store. cbn. split; [|auto].
  now apply insert_subseteq_r.
Qed.

Lemma keeps_load (h0 : gmap loc obj) (l : loc) :
  keeps h0 (load l) (fun _ => True).
Proof.
  apply keeps_heap_untouched. intros s. unfold load. now destruct (heap s !! l).
Qed.

Lemma keeps_xlog (h0 : gmap loc obj) (lvl : level) :
  keeps h0 (xlog lvl) (fun _ => True).
Proof. now apply keeps_heap_untouched. Qed.

Section ExportProperties.

Variable permitted : string -> bool.
Variable py_str : gmap loc obj -> loc -> string.
Variable to_csv : gmap loc obj -> loc -> string.
Variable json_dump : gmap loc obj -> loc -> option string.
Variable timestamp : string.

Lemma keeps_makedirs (h0 : gmap loc obj) (path : string) :
  keeps h0 (makedirs permitted path) (fun _ => True).
Proof.
  apply keeps_heap_untouched. intros s. unfold makedirs. now destruct (permitted path).
Qed.

Lemma keeps_write_file (h0 : gmap loc obj) (path content : string) :
  keeps h0 (write_file permitted path content) (fun _ => True).
Proof.
  apply keeps_heap_untouched. intros s. unfold write_file. now destruct (permitted path).
Qed.

(** The shallow copy is a new object. *)
Lemma keeps_copy (h0 : gmap loc obj) (data : loc) :
  keeps h0 (copy data) (fun l => h0 !! l = None).
Proof.
  unfold copy. eapply keeps_bind; [apply keeps_load|]. intros o _.
  destruct o; try apply keeps_raise; apply keeps_alloc.
Qed.

(** Flattening updates the object it is given and nothing else. *)
Lemma keeps_flatten (h0 : gmap loc obj) (export_data : loc) :
  h0 !! export_data = None ->
  keeps h0 (flatten_fork_details py_str export_data) (fun _ => True).
Proof.
  intros Hnew. unfold flatten_fork_details.
  eapply keeps_bind; [apply keeps_load|]. intros o _.
  destruct o; try apply keeps_raise.
  eapply keeps_bind with (Q := fun _ => True).
  { destruct (entries !! "fork_details").
    - now apply keeps_ret.
    - eapply keeps_weaken; [apply keeps_alloc|auto]. }
  intros details _.
  eapply keeps_bind; [now apply keeps_heap_untouched|]. intros text _.
  eapply keeps_bind; [apply keeps_alloc|]. intros flat _.
  now apply keeps_store.
Qed.

Lemma keeps_export_data (h0 : gmap loc obj)
    (data : loc) (output_dir base_name format : string) :
  keeps h0
    (export_data permitted py_str to_csv json_dump timestamp
       data output_dir base_name format)
    (fun _ => True).
Proof.
  unfold export_data.
  eapply keeps_bind with (Q := fun _ => True).
  { intros s Hs. destruct (bool_decide (output_dir ∈ dirs s)).
    - now apply keeps_ret.
    - now apply keeps_makedirs. }
  intros _ _. eapply keeps_bind; [apply keeps_xlog|]. intros _ _.
  apply keeps_try.
  - eapply keeps_bind; [apply keeps_copy|]. intros export_data Hnew.
    eapply keeps_bind with (Q := fun _ => True).
    { destruct (bool_decide (lower format = "csv")).
      - now apply keeps_flatten.
      - now apply keeps_ret. }
    intros _ _. eapply keeps_bind; [apply keeps_alloc|]. intros df _.
    eapply keeps_bind with (Q := fun _ => True); [|intros _ _; apply keeps_xlog].
    destruct (bool_decide (lower format = "csv")).
    + eapply keeps_bind; [now apply keeps_heap_untouched|]. intros text _.
      apply keeps_write_file.
    + destruct (bool_decide (lower format = "json")); [|apply keeps_raise].
      eapply keeps_bind; [apply keeps_write_file|]. intros _ _.
      eapply keeps_bind; [now apply keeps_heap_untouched|]. intros text _.
      destruct text; [apply keeps_write_file|apply keeps_raise].
  - intros e. eapply keeps_bind; [apply keeps_xlog|]. intros _ _. apply keeps_raise.
Qed.

(** C10: whatever the format, and whether the call returns or raises,
    every object that was in the heap before [export_data] is unchanged
    after it: the dictionary passed as [data], the list under its
    [fork_details] key and all they refer to.  The call only allocates new
    objects, and the one object it updates is the copy it allocated. *)
Theorem export_data_preserves_heap
    (data : loc) (output_dir base_name format : string) (s : xstate) :
  heap s ⊆
    heap (snd (export_data permitted py_str to_csv json_dump timestamp
                 data output_dir base_name format s)).
Proof.
  now apply (keeps_export_data (heap s) data output_dir base_name format s).
Qed.

End ExportProperties.

(** ** What an export writes and logs *)

Section ExportFurther.

Variable permitted : string -> bool.
Variable py_str : gmap loc obj -> loc -> string.
Variable to_csv : gmap loc obj -> loc -> string.
Variable json_dump : gmap loc obj -> loc -> option string.
Variable timestamp : string.

Abbreviation export := (export_data permitted py_str to_csv json_dump timestamp).

Ltac unfold_export :=
  cbv [export_data xtry xbind copy flatten_fork_details makedirs write_file
       xlog load alloc store xret xraise].

(** X18: when the output directory is missing and cannot be created, the
    [OSError] of [os.makedirs] leaves [export_data] before anything is
    logged, copied or written. *)
Theorem export_directory_refused
    (data : loc) (output_dir base_name format : string) (s : xstate) :
  output_dir ∉ dirs s ->
  permitted output_dir = false ->
  export data output_dir base_name format s = (Raise (OSError output_dir), s).
Proof.
  intros Hdir Hperm. unfold_export.
  rewrite bool_decide_eq_false_2 by exact Hdir. now rewrite Hperm.
Qed.

(** X19: once the directory is there, a call logs INFO, and then INFO again
    when it returns or ERROR when it raises: an exception inside the [try]
    is logged once and raised again. *)
Theorem export_logs_outcome
    (data : loc) (output_dir base_name format : string) (s : xstate) :
  output_dir ∈ dirs s \/ permitted output_dir = true ->
  match fst (export data output_dir base_name format s) with
  | Return _ =>
      logged (snd (export data output_dir base_name format s))
        = (logged s ++ [INFO; INFO])%list
  | Raise _ =>
      logged (snd (export data output_dir base_name format s))
        = (logged s ++ [INFO; ERROR])%list
  | OutOfFuel => False
  end.
Proof.
  intros Hdir. unfold_export.
  destruct (bool_decide (output_dir ∈ dirs s)) eqn:Hin.
  - cbn. repeat (case_match; simplify_eq/=); now rewrite <- ?app_assoc.
  - apply bool_decide_eq_false in Hin. destruct Hdir as [?|Hperm]; [done|].
    rewrite Hperm. cbn.
    repeat (case_match; simplify_eq/=); now rewrite <- ?app_assoc.
Qed.

(** X20: A format that is neither csv nor json in any letter case: the
    directory is created all the same, a [ValueError] is raised, and no
    file is written. *)
Theorem export_unsupported_format
    (data : loc) (output_dir base_name format : string) (s : xstate)
    (m : gmap string loc) :
  output_dir ∈ dirs s \/ permitted output_dir = true ->
  heap s !! data = Some (ODict m) ->
  lower format <> "csv" ->
  lower format <> "json" ->
  fst (export data output_dir base_name format s)
    = Raise (ValueError ("Unsupported export format: " ++ format)) /\
  files (snd (export data output_dir base_name format s)) = files s /\
  dirs (snd (export data output_dir base_name format s)) = {[output_dir]} ∪ dirs s.
Proof.
  intros Hdir Hdata Hcsv Hjson. unfold_export.
  rewrite !(bool_decide_eq_false_2 _ Hcsv), (bool_decide_eq_false_2 _ Hjson).
  destruct (bool_decide (output_dir ∈ dirs s)) eqn:Hin.
  - apply bool_decide_eq_true in Hin. cbn. rewrite Hdata. cbn.
    split; [reflexivity|]. split; [reflexivity|].
    symmetry. apply subseteq_union_1_L. now apply singleton_subseteq_l.
  - apply bool_decide_eq_false in Hin. destruct Hdir as [?|Hperm]; [done|].
    rewrite Hperm. cbn. rewrite Hdata. cbn. repeat split.
Qed.

(** X21: the JSON export dumps [data] itself: the copy it made is left with the
    entries of [data], nothing is flattened, and the file holds the
    rendering of the caller's record. *)
Theorem export_json_dumps_the_record
    (data : loc) (output_dir base_name format : string) (s : xstate)
    (m : gmap string loc) (text : string) :
  output_dir ∈ dirs s ->
  heap s !! data = Some (ODict m) ->
  lower format = "json" ->
  permitted (path_join output_dir (_generate_filename timestamp base_name format)) = true ->
  let c := fresh (dom (heap s)) in
  let h1 := <[c := ODict m]> (heap s) in
  let h2 := <[fresh (dom h1) := OList [c]]> h1 in
  json_dump h2 data = Some text ->
  fst (export data output_dir base_name format s) = Return tt /\
  heap (snd (export data output_dir base_name format s)) = h2 /\
  files (snd (export data output_dir base_name format s))
    = <[path_join output_dir (_generate_filename timestamp base_name format) := text]>
        (files s).
Proof.
  intros Hdir Hdata Hjson Hperm c h1 h2 Hdump. unfold_export.
  remember (path_join output_dir (_generate_filename timestamp base_name format))
    as filename eqn:Hname.
  rewrite (bool_decide_eq_true_2 _ Hdir). cbn.
  assert (lower format <> "csv") as Hcsv by (rewrite Hjson; discriminate).
  rewrite !(bool_decide_eq_false_2 _ Hcsv), (bool_decide_eq_true_2 _ Hjson).
  rewrite Hdata. cbn. rewrite Hperm. cbn. fold c. fold h1. fold h2.
  rewrite Hdump. cbn.
  repeat split. apply insert_insert_eq.
Qed.

(** X22: the CSV export writes the one-row frame built on the copy: the copy
    has the entries of [data] except that [fork_details] is the text
    [str] gives for the list, and the extension of the file is [format]
    as the caller spelt it. *)
Theorem export_csv_flattens_the_copy
    (data : loc) (output_dir base_name format : string) (s : xstate)
    (m : gmap string loc) (details : loc) :
  output_dir ∈ dirs s ->
  heap s !! data = Some (ODict m) ->
  m !! "fork_details" = Some details ->
  lower format = "csv" ->
  permitted (path_join output_dir (_generate_filename timestamp base_name format)) = true ->
  let c := fresh (dom (heap s)) in
  let h1 := <[c := ODict m]> (heap s) in
  let t := fresh (dom h1) in
  let h2 := <[c := ODict (<["fork_details" := t]> m)]>
              (<[t := OStr (py_str h1 details)]> h1) in
  let df := fresh (dom h2) in
  let h3 := <[df := OList [c]]> h2 in
  fst (export data output_dir base_name format s) = Return tt /\
  heap (snd (export data output_dir base_name format s)) = h3 /\
  files (snd (export data output_dir base_name format s))
    = <[path_join output_dir (_generate_filename timestamp base_name format) := to_csv h3 df]>
        (files s) /\
  h3 !! c = Some (ODict (<["fork_details" := t]> m)) /\
  h3 !! t = Some (OStr (py_str h1 details)) /\
  h3 !! data = Some (ODict m).
Proof.
  intros Hdir Hdata Hdetails Hcsv Hperm c h1 t h2 df h3. unfold_export.
  remember (path_join output_dir (_generate_filename timestamp base_name format))
    as filename eqn:Hname.
  rewrite (bool_decide_eq_true_2 _ Hdir). cbn.
  rewrite !(bool_decide_eq_true_2 _ Hcsv).
  rewrite Hdata. cbn. rewrite lookup_insert_eq. cbn.
  rewrite Hdetails. cbn. rewrite Hperm. cbn.
  fold c. fold h1. fold t. fold h2. fold df. fold h3.
  assert (c ∉ dom (heap s)) as Hc by apply is_fresh.
  assert (t ∉ dom h1) as Ht by apply is_fresh.
  assert (df ∉ dom h2) as Hdf by apply is_fresh.
  assert (data ∈ dom (heap s)) as Hd by (apply elem_of_dom; eauto).
  assert (t <> c) as Htc.
  { intros ->. apply Ht. unfold h1. rewrite dom_insert_L. set_solver. }
  assert (df <> c) as Hdfc.
  { intros E. apply Hdf. rewrite E. unfold h2. rewrite dom_insert_L. set_solver. }
  assert (df <> t) as Hdft.
  { intros E. apply Hdf. rewrite E. unfold h2. rewrite !dom_insert_L. set_solver. }
  assert (data <> c) as Hdc by (intros ->; done).
  assert (data <> t) as Hdt.
  { intros ->. apply Ht. unfold h1. rewrite dom_insert_L. set_solver. }
  assert (data <> df) as Hddf.
  { intros ->. apply Hdf. unfold h2, h1. rewrite !dom_insert_L. set_solver. }
  repeat split.
  - unfold h3. rewrite lookup_insert_ne by done. unfold h2. apply lookup_insert_eq.
  - unfold h3. rewrite lookup_insert_ne by done. unfold h2.
    rewrite lookup_insert_ne by done. apply lookup_insert_eq.
  - unfold h3, h2, h1. now rewrite !lookup_insert_ne by done.
Qed.

End ExportFurther.

(** ** The collector on concrete runs *)

Section Scenario.

Variable clock : nat -> Q.

Abbreviation run_call := (fun url => _make_request remote clock int_of_digits posix collector url "GET" []).

(** The refused view counts: four attempts, then the [HTTPError]. *)
Lemma remote_views_refused (s : state) :
  exists s1, run_call (views_url collector "o" "r") s = (Raise (HTTPError forbidden), s1).
Proof.
  apply make_request_http_errors;
    [done|apply collector_backoffs|reflexivity|cbn; lia|reflexivity].
Qed.

Lemma remote_basic (s : state) :
  exists b s1,
    get_repo_basic_metrics remote clock int_of_digits posix collector "o" "r" s = (Return b, s1) /\
    b !! "stars" = Some (VInt 10).
Proof.
  eexists _, _. split.
  - unfold get_repo_basic_metrics, bind at 1.
    rewrite (make_request_returns remote clock int_of_digits posix collector _ "GET" [] s
               (mkResponse 200 ∅ (Some repo_json)));
      [reflexivity|done|reflexivity|reflexivity|reflexivity].
  - apply lookup_insert_eq.
Qed.

Lemma remote_traffic (s : state) :
  exists t s1,
    get_traffic_data remote clock int_of_digits posix collector "o" "r" s = (Return t, s1) /\
    t !! "total_views" = Some (VInt 0) /\
    t !! "unique_visitors" = Some (VInt 0) /\
    t !! "total_clones" = Some (VInt 5) /\
    t !! "unique_cloners" = Some (VInt 2).
Proof.
  destruct (remote_views_refused s) as (s1 & Hviews).
  eexists _, _. split.
  - unfold get_traffic_data, bind.
    rewrite (guarded_fetch_value remote clock int_of_digits posix collector _ s
               (Raise (HTTPError forbidden)) s1 zero_counts Hviews eq_refl).
    erewrite (guarded_fetch_value remote clock int_of_digits posix collector _ _
                (Return (mkResponse 200 ∅ (Some clones_json))) _ clones_json);
      [|apply make_request_returns; [done|reflexivity|reflexivity|reflexivity]|reflexivity].
    reflexivity.
  - repeat split.
Qed.

Lemma remote_forks (s : state) :
  exists f s1,
    get_fork_details remote clock int_of_digits posix collector "o" "r" s = (Return f, s1) /\
    length f = 2%nat.
Proof.
  eexists _, _. split.
  - unfold get_fork_details, bind at 1.
    rewrite (make_request_returns remote clock int_of_digits posix collector _ "GET" [] s
               (mkResponse 200 ∅ (Some (VList [fork_json "ann"; fork_json "bob"]))));
      [|done|reflexivity|reflexivity|reflexivity].
    apply (comprehension_fork_entries [fork_json "ann"; fork_json "bob"]
             [fork_kept "ann"; fork_kept "bob"]).
    split; [reflexivity|].
    repeat constructor; unfold fork_summary, fork_json, fork_kept;
      eexists _, _, _, _, _, _; repeat split; reflexivity.
  - reflexivity.
Qed.

(** The collection against that remote end comes back with a record. *)
Lemma remote_collect (isoformat : Q -> string) (s : state) :
  exists record s',
    collect_all_metrics remote clock int_of_digits posix isoformat collector "o" "r" s
      = (Return record, s').
Proof.
  destruct (remote_basic (logged_at INFO s)) as (b & s1 & Hb & _).
  destruct (remote_traffic s1) as (t & s2 & Ht & _).
  destruct (remote_forks s2) as (f & s3 & Hf & _).
  eexists _, _. eapply collect_returns; [exact Hb|exact Ht|exact Hf].
Qed.

End Scenario.

(** The views call is refused with a plain 403 and the clones call answers
    [{count: 5, uniques: 2}]: the views counters are zero and the clones
    counters are the response's. *)
Lemma traffic_guards_independent_witness :
  exists s1 s2,
    _make_request remote (frozen 0) int_of_digits posix collector
      (views_url collector "o" "r") "GET" [] start = (Raise (HTTPError forbidden), s1) /\
    _make_request remote (frozen 0) int_of_digits posix collector
      (clones_url collector "o" "r") "GET" []
      (guarded_state (Raise (HTTPError forbidden)) s1)
      = (Return (mkResponse 200 ∅ (Some clones_json)), s2) /\
    get_traffic_data remote (frozen 0) int_of_digits posix collector "o" "r" start
      = (Return (<["total_views" := VInt 0]>
                   (<["unique_visitors" := VInt 0]>
                      (<["total_clones" := VInt 5]>
                         (<["unique_cloners" := VInt 2]> ∅)))),
         s2).
Proof.
  destruct (remote_views_refused (frozen 0) start) as (s1 & Hviews).
  exists s1. eexists.
  assert (_make_request remote (frozen 0) int_of_digits posix collector
            (clones_url collector "o" "r") "GET" []
            (guarded_state (Raise (HTTPError forbidden)) s1)
          = (Return (mkResponse 200 ∅ (Some clones_json)),
             answered (mkRequest "GET" (clones_url collector "o" "r") (self_headers collector) [])
               (guarded_state (Raise (HTTPError forbidden)) s1))) as Hclones.
  { apply make_request_returns; [done|reflexivity|reflexivity|reflexivity]. }
  split; [exact Hviews|]. split; [exact Hclones|].
  destruct (traffic_guards_independent remote (frozen 0) int_of_digits posix collector
              "o" "r" start (Raise (HTTPError forbidden)) s1 Hviews) as [_ Hguard].
  destruct (Hguard (VInt 0) (VInt 0)
              (or_introl (ex_intro _ forbidden (conj eq_refl (conj eq_refl eq_refl))))
              _ _ Hclones) as [_ Hsum].
  apply (Hsum (VInt 5) (VInt 2)). right.
  exists (mkResponse 200 ∅ (Some clones_json)),
    (<["count" := VInt 5]> (<["uniques" := VInt 2]> ∅)).
  split; [reflexivity|]. split; [reflexivity|]. split; reflexivity.
Defined.

(** The forks endpoint fails at the network level: the collection raises
    that error and returns no record. *)
Lemma collect_without_forks_raises (record : gmap string pyval) (s' : state) :
  collect_all_metrics remote_without_forks (frozen 0) int_of_digits posix
    (fun _ => "now") collector "o" "r" start <> (Return record, s').
Proof.
  intros H. apply collect_inv in H as (b & s1 & t & s2 & f & s3 & _ & _ & Hf & _).
  destruct (make_request_network_failures remote_without_forks (frozen 0) int_of_digits posix
              collector (repo_url collector "o" "r" ++ "/forks")%string "GET" [] s2
              "connection reset")
    as (s4 & Hrun); [done|apply collector_backoffs|reflexivity|].
  unfold get_fork_details, bind in Hf. now rewrite Hrun in Hf.
Qed.

Lemma collect_all_metrics_sequence_witness :
  exists record s',
    collect_all_metrics remote (frozen 0) int_of_digits posix (fun _ => "now") collector
      "o" "r" start = (Return record, s') /\
    record !! "fork_count" = Some (VInt 2).
Proof.
  pose proof (collect_all_metrics_sequence remote (frozen 0) int_of_digits posix
                (fun _ => "now") collector "o" "r" start) as H.
  cbv zeta in H. destruct H as (_ & _ & _ & H).
  destruct (remote_basic (frozen 0) (logged_at INFO start)) as (b & s1 & Hb & _).
  destruct (remote_traffic (frozen 0) s1) as (t & s2 & Ht & _).
  destruct (remote_forks (frozen 0) s2) as (f & s3 & Hf & Hlen).
  destruct (H b s1 t s2 f s3 Hb Ht Hf) as (record & Hrun & _ & _ & Hcount & _).
  exists record. eexists. split; [exact Hrun|].
  rewrite Hcount, Hlen. reflexivity.
Defined.

Lemma collect_twice_differs_only_in_timestamp_witness :
  exists record1 s1,
    collect_all_metrics remote (fun n => inject_Z (Z.of_nat n)) int_of_digits posix
      (fun q => if Qle_bool q 0 then "first" else "second") collector
      "o" "r" start = (Return record1, s1) /\
    exists record2 s2,
      collect_all_metrics remote (fun n => inject_Z (Z.of_nat n)) int_of_digits posix
        (fun q => if Qle_bool q 0 then "first" else "second") collector
        "o" "r" s1 = (Return record2, s2) /\
      forall field, field <> "timestamp" -> record2 !! field = record1 !! field.
Proof.
  destruct (remote_collect (fun n => inject_Z (Z.of_nat n))
              (fun q => if Qle_bool q 0 then "first" else "second") start)
    as (record1 & s1 & Hrun).
  exists record1, s1. split; [exact Hrun|].
  exact (collect_twice_differs_only_in_timestamp remote
           (fun n => inject_Z (Z.of_nat n)) int_of_digits posix collector
           (fun n m req => eq_refl)
           (fun q => if Qle_bool q 0 then "first" else "second") "o" "r" start s1 record1
           Hrun).
Defined.

(** A CSV export of the record at location 1: the record and its list of
    forks are as before, and the flattened text went into a copy. *)
Lemma export_csv_flattens_a_copy :
  let s' := snd (export_data (fun _ => true) (fun _ _ => "[...]") (fun _ _ => "csv")
                   (fun _ _ => Some "json") "20240101_000000"
                   1%positive "out" "github_metrics" "CSV" empty_disk) in
  heap s' !! 1%positive = record_heap !! 1%positive /\
  heap s' !! 2%positive = Some (OList [3%positive]) /\
  heap s' !! 6%positive
    = Some (ODict (<["stars" := 4%positive]> (<["fork_details" := 7%positive]> ∅))) /\
  heap s' !! 7%positive = Some (OStr "[...]") /\
  files s' !! "out/github_metrics_20240101_000000.CSV" = Some "csv".
Proof. vm_compute. repeat split. Qed.

(** ** Further concrete runs *)

Lemma negative_max_retries_sends_nothing_witness :
  _make_request remote (frozen 0) int_of_digits posix (init "secret" (-1) 5)
    "https://api.github.com/repos/o/r" "GET" [] start
    = (Raise (Exception "Maximum retries exceeded"), start).
Proof.
  apply (negative_max_retries_sends_nothing remote (frozen 0) int_of_digits posix
           (init "secret" (-1) 5)).
  cbn. lia.
Defined.

Lemma http_error_exhausts_retries_witness :
  exists s',
    _make_request (always (Responded not_found)) (frozen 0) int_of_digits posix collector
      "https://api.github.com/repos/o/r" "GET" [] start
      = (Raise (HTTPError not_found), s') /\
    sleeps (trace s') =
      (sleeps (trace start) ++
       ((fun n => inject_Z (retry_delay collector * 2 ^ (Z.of_nat n - 1)))
          <$> seq 1 (Z.to_nat (max_retries collector))))%list /\
    sent s' = (sent start + Z.to_nat (max_retries collector) + 1)%nat.
Proof.
  apply (http_error_exhausts_retries (always (Responded not_found)) (frozen 0)
           int_of_digits posix collector "https://api.github.com/repos/o/r" "GET" []
           start not_found).
  - cbn. lia.
  - apply backoffs_accepted_short; vm_compute; discriminate.
  - reflexivity.
  - cbn. lia.
  - intros k _. reflexivity.
Defined.

Lemma missing_reset_header_raises_key_error_witness :
  _make_request (always (Responded limited_without_reset)) (frozen 0) int_of_digits posix
    collector "https://api.github.com/repos/o/r" "GET" [] start
    = (Raise (KeyError "X-RateLimit-Reset"),
       answered (get collector "https://api.github.com/repos/o/r") start).
Proof.
  apply (missing_reset_header_raises_key_error (always (Responded limited_without_reset))
           (frozen 0) int_of_digits posix collector "https://api.github.com/repos/o/r" "GET" []
           start limited_without_reset).
  - cbn. lia.
  - reflexivity.
  - reflexivity.
  - reflexivity.
Defined.

Lemma malformed_reset_header_raises_value_error_witness :
  _make_request (always (Responded (rate_limit_response "soon"))) (frozen 0)
    int_of_digits posix collector "https://api.github.com/repos/o/r" "GET" [] start
    = (Raise (ValueError "invalid literal for int()"),
       answered (get collector "https://api.github.com/repos/o/r") start).
Proof.
  apply (malformed_reset_header_raises_value_error
           (always (Responded (rate_limit_response "soon")))
           (frozen 0) int_of_digits posix collector "https://api.github.com/repos/o/r" "GET" []
           start (rate_limit_response "soon") "soon").
  - cbn. lia.
  - reflexivity.
  - reflexivity.
  - reflexivity.
  - reflexivity.
Defined.

Lemma returned_response_is_no_error_witness :
  ~ (400 <= status_code ok_response < 600) /\ rate_limited ok_response = false.
Proof.
  apply (returned_response_is_no_error (always (Responded ok_response)) (frozen 0)
           int_of_digits posix collector "https://api.github.com/repos/o/r" "GET" [] start
           (answered (get collector "https://api.github.com/repos/o/r") start)
           ok_response).
  apply make_request_returns; [cbn; lia|reflexivity|reflexivity|reflexivity].
Defined.

Lemma basic_metrics_mapping_witness :
  get_repo_basic_metrics remote (frozen 0) int_of_digits posix collector "o" "r" start =
    (Return (<["stars" := VInt 10]> (<["forks" := VInt 2]> (<["watchers" := VInt 3]>
               (<["open_issues" := VInt 1]>
                  (<["last_updated" := VStr "2024-01-01T00:00:00Z"]> ∅))))),
     answered (get collector (repo_url collector "o" "r")) start).
Proof.
  eapply (basic_metrics_mapping remote (frozen 0) int_of_digits posix collector "o" "r" start).
  - apply make_request_returns; [cbn; lia|reflexivity|reflexivity|reflexivity].
  - reflexivity.
  - reflexivity.
  - reflexivity.
  - reflexivity.
  - reflexivity.
  - reflexivity.
Defined.

Lemma basic_metrics_missing_key_witness :
  get_repo_basic_metrics (always (Responded partial_repo)) (frozen 0) int_of_digits posix
    collector "o" "r" start
    = (Raise (KeyError "forks_count"),
       answered (get collector (repo_url collector "o" "r")) start).
Proof.
  eapply (basic_metrics_missing_key (always (Responded partial_repo)) (frozen 0)
            int_of_digits posix collector "o" "r" start _ partial_repo _
            ["stargazers_count"] ["subscribers_count"; "open_issues_count"; "updated_at"]
            "forks_count").
  - apply make_request_returns; [cbn; lia|reflexivity|reflexivity|reflexivity].
  - reflexivity.
  - reflexivity.
  - constructor; [|constructor]. eexists. reflexivity.
  - reflexivity.
Defined.

Lemma basic_metrics_bad_body_witness :
  get_repo_basic_metrics (always (Responded no_json)) (frozen 0) int_of_digits posix
    collector "o" "r" start
    = (Raise JSONDecodeError, answered (get collector (repo_url collector "o" "r")) start).
Proof.
  apply (basic_metrics_bad_body (always (Responded no_json)) (frozen 0) int_of_digits posix
           collector "o" "r" start _ no_json).
  - apply make_request_returns; [cbn; lia|reflexivity|reflexivity|reflexivity].
  - reflexivity.
Defined.

Lemma traffic_missing_counters_default_to_zero_witness :
  get_traffic_data (always (Responded ok_response)) (frozen 0) int_of_digits posix
    collector "o" "r" start
    = (Return (<["total_views" := default (VInt 0) ((∅ : gmap string pyval) !! "count")]>
                (<["unique_visitors" := default (VInt 0) ((∅ : gmap string pyval) !! "uniques")]>
                  (<["total_clones" := default (VInt 0) ((∅ : gmap string pyval) !! "count")]>
                    (<["unique_cloners" := default (VInt 0) ((∅ : gmap string pyval) !! "uniques")]>
                       ∅)))),
       answered (get collector (clones_url collector "o" "r"))
         (answered (get collector (views_url collector "o" "r")) start)).
Proof.
  eapply (traffic_missing_counters_default_to_zero (always (Responded ok_response))
            (frozen 0) int_of_digits posix collector "o" "r" start _ _ ok_response ok_response).
  - apply make_request_returns; [cbn; lia|reflexivity|reflexivity|reflexivity].
  - reflexivity.
  - apply make_request_returns; [cbn; lia|reflexivity|reflexivity|reflexivity].
  - reflexivity.
Defined.

Lemma traffic_views_not_an_object_witness :
  get_traffic_data (always (Responded list_body)) (frozen 0) int_of_digits posix
    collector "o" "r" start
    = (Raise AttributeError,
       guarded_state (Return list_body)
         (answered (get collector (clones_url collector "o" "r"))
            (answered (get collector (views_url collector "o" "r")) start))).
Proof.
  eapply (traffic_views_not_an_object (always (Responded list_body)) (frozen 0)
            int_of_digits posix collector "o" "r" start _ _ list_body (VList [])
            (Return list_body) (VList [])).
  - apply make_request_returns; [cbn; lia|reflexivity|reflexivity|reflexivity].
  - reflexivity.
  - discriminate.
  - apply make_request_returns; [cbn; lia|reflexivity|reflexivity|reflexivity].
  - reflexivity.
Defined.

Lemma fork_details_one_summary_per_fork_witness :
  get_fork_details remote (frozen 0) int_of_digits posix collector "o" "r" start
    = (Return [fork_kept "ann"; fork_kept "bob"],
       answered (get collector (repo_url collector "o" "r" ++ "/forks")%string) start).
Proof.
  eapply (fork_details_one_summary_per_fork remote (frozen 0) int_of_digits posix collector
            "o" "r" start).
  - apply make_request_returns; [cbn; lia|reflexivity|reflexivity|reflexivity].
  - reflexivity.
  - split; [reflexivity|].
    repeat constructor; unfold fork_summary, fork_json, fork_kept;
      eexists _, _, _, _, _, _; repeat split; reflexivity.
Defined.

Lemma fork_details_of_an_object_witness :
  get_fork_details (always (Responded ok_response)) (frozen 0) int_of_digits posix
    collector "o" "r" start
    = (if decide ((∅ : gmap string pyval) = ∅) then Return [] else Raise TypeError,
       answered (get collector (repo_url collector "o" "r" ++ "/forks")%string) start).
Proof.
  apply (fork_details_of_an_object (always (Responded ok_response)) (frozen 0)
           int_of_digits posix collector "o" "r" start _ ok_response).
  - apply make_request_returns; [cbn; lia|reflexivity|reflexivity|reflexivity].
  - reflexivity.
Defined.

Lemma fork_details_not_iterable_witness :
  get_fork_details (always (Responded null_body)) (frozen 0) int_of_digits posix
    collector "o" "r" start
    = (Raise TypeError,
       answered (get collector (repo_url collector "o" "r" ++ "/forks")%string) start).
Proof.
  apply (fork_details_not_iterable (always (Responded null_body)) (frozen 0)
           int_of_digits posix collector "o" "r" start _ null_body VNone).
  - apply make_request_returns; [cbn; lia|reflexivity|reflexivity|reflexivity].
  - reflexivity.
  - discriminate.
  - discriminate.
  - discriminate.
Defined.

Lemma record_has_thirteen_fields_witness :
  exists record s',
    collect_all_metrics remote (frozen 0) int_of_digits posix (fun _ => "now") collector
      "o" "r" start = (Return record, s') /\
    dom record =
      list_to_set ["timestamp"; "repository"; "stars"; "forks"; "watchers"; "open_issues";
                   "last_updated"; "total_views"; "unique_visitors"; "total_clones";
                   "unique_cloners"; "fork_count"; "fork_details"].
Proof.
  destruct (remote_collect (frozen 0) (fun _ => "now") start) as (record & s' & Hrun).
  exists record, s'. split; [exact Hrun|].
  exact (record_has_thirteen_fields remote (frozen 0) int_of_digits posix (fun _ => "now")
           collector "o" "r" start s' record Hrun).
Defined.

Lemma export_directory_refused_witness :
  export_data (fun _ => false) (fun _ _ => "[...]") (fun _ _ => "csv")
    (fun _ _ => Some "json") "20240101_000000" 1%positive "out" "github_metrics" "csv"
    empty_disk
    = (Raise (OSError "out"), empty_disk).
Proof.
  apply (export_directory_refused (fun _ => false) (fun _ _ => "[...]") (fun _ _ => "csv")
           (fun _ _ => Some "json") "20240101_000000" 1%positive "out" "github_metrics"
           "csv" empty_disk).
  - cbn. apply not_elem_of_empty.
  - reflexivity.
Defined.

Lemma export_logs_outcome_witness :
  match fst (export_data (fun _ => true) (fun _ _ => "[...]") (fun _ _ => "csv")
               (fun _ _ => Some "json") "20240101_000000" 1%positive "out"
               "github_metrics" "csv" empty_disk) with
  | Return _ =>
      logged (snd (export_data (fun _ => true) (fun _ _ => "[...]") (fun _ _ => "csv")
                     (fun _ _ => Some "json") "20240101_000000" 1%positive "out"
                     "github_metrics" "csv" empty_disk))
        = (logged empty_disk ++ [INFO; INFO])%list
  | Raise _ =>
      logged (snd (export_data (fun _ => true) (fun _ _ => "[...]") (fun _ _ => "csv")
                     (fun _ _ => Some "json") "20240101_000000" 1%positive "out"
                     "github_metrics" "csv" empty_disk))
        = (logged empty_disk ++ [INFO; ERROR])%list
  | OutOfFuel => False
  end.
Proof.
  apply (export_logs_outcome (fun _ => true) (fun _ _ => "[...]") (fun _ _ => "csv")
           (fun _ _ => Some "json") "20240101_000000" 1%positive "out" "github_metrics"
           "csv" empty_disk).
  right. reflexivity.
Defined.

Lemma export_unsupported_format_witness :
  fst (export_data (fun _ => true) (fun _ _ => "[...]") (fun _ _ => "csv")
         (fun _ _ => Some "json") "20240101_000000" 1%positive "out" "github_metrics"
         "xml" empty_disk)
    = Raise (ValueError ("Unsupported export format: " ++ "xml")) /\
  files (snd (export_data (fun _ => true) (fun _ _ => "[...]") (fun _ _ => "csv")
                (fun _ _ => Some "json") "20240101_000000" 1%positive "out"
                "github_metrics" "xml" empty_disk)) = files empty_disk /\
  dirs (snd (export_data (fun _ => true) (fun _ _ => "[...]") (fun _ _ => "csv")
               (fun _ _ => Some "json") "20240101_000000" 1%positive "out"
               "github_metrics" "xml" empty_disk)) = {["out"]} ∪ dirs empty_disk.
Proof.
  eapply (export_unsupported_format (fun _ => true) (fun _ _ => "[...]") (fun _ _ => "csv")
            (fun _ _ => Some "json") "20240101_000000" 1%positive "out" "github_metrics"
            "xml" empty_disk).
  - right. reflexivity.
  - reflexivity.
  - cbn. discriminate.
  - cbn. discriminate.
Defined.

Lemma export_json_dumps_the_record_witness :
  fst (export_data (fun _ => true) (fun _ _ => "[...]") (fun _ _ => "csv")
         (fun _ _ => Some "{}") "20240101_000000" 1%positive "out" "github_metrics"
         "json" disk_with_out) = Return tt /\
  files (snd (export_data (fun _ => true) (fun _ _ => "[...]") (fun _ _ => "csv")
                (fun _ _ => Some "{}") "20240101_000000" 1%positive "out"
                "github_metrics" "json" disk_with_out))
    = <[path_join "out" (_generate_filename "20240101_000000" "github_metrics" "json")
          := "{}"]> (files disk_with_out).
Proof.
  destruct (export_json_dumps_the_record (fun _ => true) (fun _ _ => "[...]")
              (fun _ _ => "csv") (fun _ _ => Some "{}") "20240101_000000" 1%positive
              "out" "github_metrics" "json" disk_with_out
              (<["stars" := 4%positive]> (<["fork_details" := 2%positive]> ∅)) "{}")
    as (H1 & _ & H3).
  - cbn. now apply elem_of_singleton.
  - reflexivity.
  - reflexivity.
  - reflexivity.
  - reflexivity.
  - split; [exact H1|exact H3].
Defined.

Lemma export_csv_flattens_the_copy_witness :
  fst (export_data (fun _ => true) (fun _ _ => "[...]") (fun _ _ => "csv")
         (fun _ _ => Some "{}") "20240101_000000" 1%positive "out" "github_metrics"
         "CSV" disk_with_out) = Return tt /\
  heap (snd (export_data (fun _ => true) (fun _ _ => "[...]") (fun _ _ => "csv")
               (fun _ _ => Some "{}") "20240101_000000" 1%positive "out"
               "github_metrics" "CSV" disk_with_out)) !! 1%positive
    = Some (ODict (<["stars" := 4%positive]> (<["fork_details" := 2%positive]> ∅))).
Proof.
  destruct (export_csv_flattens_the_copy (fun _ => true) (fun _ _ => "[...]")
              (fun _ _ => "csv") (fun _ _ => Some "{}") "20240101_000000" 1%positive
              "out" "github_metrics" "CSV" disk_with_out
              (<["stars" := 4%positive]> (<["fork_details" := 2%positive]> ∅)) 2%positive)
    as (H1 & H2 & _ & _ & _ & H6).
  - cbn. now apply elem_of_singleton.
  - reflexivity.
  - reflexivity.
  - reflexivity.
  - reflexivity.
  - split; [exact H1|]. rewrite H2. exact H6.
Defined.
